(** * Hades-Mailer: the two mail routes of [routes/index.js]

    A shallow embedding of the handlers [router.post('/sendMail')] (batch
    send to an audience resolved from the registry) and
    [router.post('/sendMail/:customEmail')] (direct send to one address),
    followed by the properties of the dispatcher specification checked
    against them.

    The handlers are asynchronous JavaScript: they call libraries (md5,
    qrcode, showdown, axios, @sendgrid/mail), log to the console, answer on
    [res] and may throw.  They are modelled in a small monad that records
    every such call in a trace and carries the JavaScript completion
    (normal, or an exception that propagates). *)

From Stdlib Require Import String Ascii List ZArith Bool Lia DecimalString.
Import ListNotations.
Local Open Scope string_scope.
Local Open Scope list_scope.

(** ** JavaScript values and errors *)

(** The values a request field can hold after body parsing. *)
Inductive JsValue : Type :=
| JUndefined
| JBool (b : bool)
| JNum (n : Z)
| JStr (s : string).

(** JavaScript truthiness, as used by [isMarkdown ? ... : ...]. *)
Definition truthy (v : JsValue) : bool :=
  match v with
  | JUndefined => false
  | JBool b => b
  | JNum n => negb (Z.eqb n 0)
  | JStr s => negb (String.eqb s "")
  end.

(** The string a validator sees: express-validator converts the field to a
    string first, an absent field to the empty string.  A number is
    printed as its decimal numeral, which is what JavaScript prints for
    the safe integers (magnitude below 2^53); larger numbers, which
    JavaScript rounds and from 1e21 on prints with an exponent, and
    fractions are outside this model. *)
Definition toString (v : JsValue) : string :=
  match v with
  | JUndefined => ""
  | JBool true => "true"
  | JBool false => "false"
  | JNum n => NilZero.string_of_int (Z.to_int n)
  | JStr s => s
  end.

Inductive JsError : Type :=
| ReferenceError (ident : string)   (* "<ident> is not defined" *)
| TypeError (message : string)
| LibraryError (detail : string).   (* rejection of an external call *)

(** ** Data of the routes *)

Record Participant : Type := { email : string }.

Record Query : Type :=
  { key : string; value : string; specific : JsValue }.

(** The body posted to the registry.  [day] is [None] where the object
    literal has no [day] property (the 'both' branch). *)
Record Payload : Type :=
  { event : string; day : option JsValue; query : Query }.

Record AxiosConfig : Type :=
  { baseURL : string; timeout : nat; Authorization : option string }.

(** What the handler reads of the registry's answer: [response.rs], which
    is an array or is missing. *)
Record RegistryResponse : Type := { rs : option (list Participant) }.

Record Attachment : Type :=
  { content : string; filename : string; type : string; disposition : string }.

Record Message : Type :=
  { msg_to : string; msg_from : string; subject : string; html : string;
    attachments : list Attachment }.

Record ValidationError : Type :=
  { msg : string; param : string; location : string }.

(** The objects passed to [res.status(...).send(...)]. *)
Inductive ResponseBody : Type :=
| ValidationFailed (err : list ValidationError)
| EmptyParticipants (err : string)
| SuccessCount (participants : nat)   (* {status:'success', err:null, participants} *)
| Success                             (* {status:'success', err:null} *)
| MailNotSent (err : JsError).

(** [req]: the parsed body, the path parameter and the header the routes
    read.  String fields hold the empty string when absent.  The text
    fields are strings here: a body in which one of them is an array or
    an object (a JSON body, a repeated urlencoded key) is outside this
    model. *)
Record Body : Type :=
  { eventName : string; mailSubject : string; mailBody : string;
    sendTo : string; gender : string;
    isMarkdown : JsValue; body_day : JsValue; body_specific : JsValue }.

Record Request : Type :=
  { body : Body; customEmail : string; x_access_token : option string }.

(** ** External collaborators

    Everything the file imports or reads from the environment.  Calls that
    can reject return [inl] of the error. *)
Record Collaborators : Type :=
  { BASE_URL : string;
    FROM_EMAIL : string;
    md5 : string -> string;
    qr_toDataURL : string -> JsError + string;
    converter_makeHtml : string -> string;
    mail_send : Message -> option JsError;
    instance_post : AxiosConfig -> string -> Payload -> JsError + RegistryResponse;
    isEmail : string -> bool;
    isBoolean : string -> bool;
    isInt : string -> bool;
    trim : string -> string;
    escape : string -> string }.

(** ** Effects *)

Inductive Event : Type :=
| EvPost (cfg : AxiosConfig) (url : string) (data : Payload)
| EvLog (e : JsError)
| EvRespond (status : nat) (b : ResponseBody)
| EvMd5 (input : string)
| EvQr (token : string)
| EvMakeHtml (text : string)
| EvSend (m : Message).

Inductive Completion (A : Type) : Type :=
| Normal (a : A)
| Throw (e : JsError).
Arguments Normal {A} a.
Arguments Throw {A} e.

(** A computation: the calls it made, in order, and how it completed. *)
Definition Eff (A : Type) : Type := (list Event * Completion A)%type.

Definition ret {A} (a : A) : Eff A := ([], Normal a).

Definition throw {A} (e : JsError) : Eff A := ([], Throw e).

Definition emit (ev : Event) : Eff unit := ([ev], Normal tt).

Definition bind {A B} (m : Eff A) (k : A -> Eff B) : Eff B :=
  match m with
  | (t, Normal a) => (t ++ fst (k a), snd (k a))
  | (t, Throw e) => (t, Throw e)
  end.

(** [try { m } catch (e) { h e }] *)
Definition try_catch {A} (m : Eff A) (h : JsError -> Eff A) : Eff A :=
  match m with
  | (t, Normal a) => (t, Normal a)
  | (t, Throw e) => (t ++ fst (h e), snd (h e))
  end.

Declare Scope eff_scope.
Delimit Scope eff_scope with eff.
Notation "x <- c ;; k" := (bind c (fun x => k))
  (at level 61, c at next level, right associativity) : eff_scope.
Notation "c ;; k" := (bind c (fun _ => k))
  (at level 61, right associativity) : eff_scope.
Local Open Scope eff_scope.

Definition trace {A} (m : Eff A) : list Event := fst m.
Definition completion {A} (m : Eff A) : Completion A := snd m.

(** ** Validation chains (express-validator) *)

Definition isEmpty (s : string) : bool := String.eqb s "".

Definition isIn (allowed : list string) (s : string) : bool :=
  existsb (String.eqb s) allowed.

(** One link of a chain: a validator, negated when [.not()] precedes it.
    A link that fails reports "Invalid value" for its field. *)
Definition link (field loc : string) (negated : bool)
    (validator : string -> bool) (v : string) : list ValidationError :=
  if xorb (validator v) negated then []
  else [{| msg := "Invalid value"; param := field; location := loc |}].

Definition not_isEmpty (field loc v : string) : list ValidationError :=
  link field loc true isEmpty v.

Section Routes.

Variable E : Collaborators.

(** The chains of [router.post('/sendMail', [...])]. *)
Definition validate_sendMail (req : Request) : list ValidationError :=
  let b := body req in
  not_isEmpty "eventName" "body" (eventName b)
  ++ not_isEmpty "mailSubject" "body" (mailSubject b)
  ++ not_isEmpty "mailBody" "body" (mailBody b)
  ++ (not_isEmpty "sendTo" "body" (sendTo b)
      ++ link "sendTo" "body" false (isIn ["absent"; "present"; "both"]) (sendTo b))
  ++ (not_isEmpty "gender" "body" (gender b)
      ++ link "gender" "body" false (isIn ["male"; "female"; "both"]) (gender b))
  ++ (not_isEmpty "isMarkdown" "body" (toString (isMarkdown b))
      ++ link "isMarkdown" "body" false (isBoolean E) (toString (isMarkdown b)))
  ++ (not_isEmpty "day" "body" (toString (body_day b))
      ++ link "day" "body" false (isInt E) (toString (body_day b))).

(** The chains of [router.post('/sendMail/:customEmail', [...])]. *)
Definition validate_sendCustomMail (req : Request) : list ValidationError :=
  let b := body req in
  not_isEmpty "eventName" "body" (eventName b)
  ++ not_isEmpty "mailSubject" "body" (mailSubject b)
  ++ not_isEmpty "mailBody" "body" (mailBody b)
  ++ (not_isEmpty "isMarkdown" "body" (toString (isMarkdown b))
      ++ link "isMarkdown" "body" false (isBoolean E) (toString (isMarkdown b)))
  ++ (not_isEmpty "customEmail" "params" (customEmail req)
      ++ link "customEmail" "params" false (isEmail E) (customEmail req)).

(** [check('mailBody')....trim().escape()] rewrites [req.body.mailBody]. *)
Definition sanitized_mailBody (b : Body) : string :=
  escape E (trim E (mailBody b)).

(** ** Calls *)

Definition console_log (e : JsError) : Eff unit := emit (EvLog e).

Definition respond (status : nat) (b : ResponseBody) : Eff unit :=
  emit (EvRespond status b).

Definition call_md5 (s : string) : Eff string :=
  emit (EvMd5 s) ;; ret (md5 E s).

Definition call_toDataURL (token : string) : Eff string :=
  emit (EvQr token) ;;
  match qr_toDataURL E token with
  | inr url => ret url
  | inl e => throw e
  end.

Definition call_makeHtml (text : string) : Eff string :=
  emit (EvMakeHtml text) ;; ret (converter_makeHtml E text).

Definition call_send (m : Message) : Eff unit :=
  emit (EvSend m) ;;
  match mail_send E m with
  | None => ret tt
  | Some e => throw e
  end.

Definition call_post (cfg : AxiosConfig) (url : string) (data : Payload)
  : Eff RegistryResponse :=
  emit (EvPost cfg url data) ;;
  match instance_post E cfg url data with
  | inr r => ret r
  | inl e => throw e
  end.

(** Reading the identifier [x] where the participant-valued bindings in
    scope are [scope]; an identifier that is not declared throws. *)
Fixpoint read_participant (scope : list (string * Participant)) (x : string)
  : Eff Participant :=
  match scope with
  | [] => throw (ReferenceError x)
  | (y, p) :: rest => if String.eqb x y then ret p else read_participant rest x
  end.

(** ** The message literal *)

Fixpoint strip_prefix (p s : string) : option string :=
  match p with
  | EmptyString => Some s
  | String a p' =>
      match s with
      | EmptyString => None
      | String c s' => if Ascii.eqb a c then strip_prefix p' s' else None
      end
  end.

(** [code.replace(/^data:image\/(png|jpg);base64,/, "")] on a string. *)
Definition strip_data_header (code : string) : string :=
  match strip_prefix "data:image/png;base64," code with
  | Some rest => rest
  | None =>
      match strip_prefix "data:image/jpg;base64," code with
      | Some rest => rest
      | None => code
      end
  end.

(** [code.replace(...)] where [code] may still be [undefined]. *)
Definition code_replace (code : option string) : Eff string :=
  match code with
  | Some c => ret (strip_data_header c)
  | None => throw (TypeError "Cannot read property 'replace' of undefined")
  end.

(** The literal [const msg = {to, from, subject, html, attachments}], the
    same in both routes; its properties are evaluated in order. *)
Definition build_msg (recipient mailSubject' mailBody' : string)
    (isMarkdown' : JsValue) (code : option string) : Eff Message :=
  h <- (if truthy isMarkdown' then call_makeHtml mailBody' else ret mailBody') ;;
  c <- code_replace code ;;
  ret {| msg_to := recipient; msg_from := FROM_EMAIL E; subject := mailSubject';
         html := h;
         attachments := [{| content := c; filename := "qrcode.png";
                            type := "image/png"; disposition := "attachment" |}] |}.

(** ** POST /sendMail *)

Definition gender_code (g : string) : string :=
  if String.eqb g "female" then "F" else "M".

(** [let response; switch (sendTo) { ... }]: each case posts inside its own
    try/catch, which logs and leaves [response] undefined. *)
Definition resolve_audience (instance : AxiosConfig) (b : Body)
  : Eff (option RegistryResponse) :=
  if String.eqb (sendTo b) "absent" then
    try_catch
      (r <- call_post instance "simple-projection/project-absent"
              {| event := eventName b; day := Some (body_day b);
                 query := {| key := "gender"; value := gender_code (gender b);
                             specific := body_specific b |} |} ;;
       ret (Some r))
      (fun e => console_log e ;; ret None)
  else if String.eqb (sendTo b) "present" then
    try_catch
      (r <- call_post instance "simple-projection/project-absent"
              {| event := eventName b; day := Some (body_day b);
                 query := {| key := "gender"; value := gender_code (gender b);
                             specific := body_specific b |} |} ;;
       ret (Some r))
      (fun e => console_log e ;; ret None)
  else if String.eqb (sendTo b) "both" then
    try_catch
      (r <- call_post instance "simple-projection/project-all"
              {| event := eventName b; day := None;
                 query := {| key := "gender"; value := gender_code (gender b);
                             specific := body_specific b |} |} ;;
       ret (Some r))
      (fun e => console_log e ;; ret None)
  else ret None.

(** [response.rs.length] and the iteration over [response.rs]. *)
Definition read_rs (r : RegistryResponse) : Eff (list Participant) :=
  match rs r with
  | Some l => ret l
  | None => throw (TypeError "Cannot read property 'length' of undefined")
  end.

(** [let code; try { code = await qr.toDataURL(md5(participant.email +
    eventName)); } catch (e) { console.log(e); }] placed before the loop,
    where no [participant] is declared. *)
Definition derive_code_before_loop (b : Body) : Eff (option string) :=
  try_catch
    (participant <- read_participant [] "participant" ;;
     token <- call_md5 (email participant ++ eventName b) ;;
     url <- call_toDataURL token ;;
     ret (Some url))
    (fun e => console_log e ;; ret None).

(** [for (const participant of response.rs) { const msg = ...; try { await
    mail.send(msg); } catch (e) { console.log(e); } }] *)
Fixpoint deliver_all (b : Body) (mailBody' : string) (code : option string)
    (l : list Participant) : Eff unit :=
  match l with
  | [] => ret tt
  | participant :: rest =>
      m <- build_msg (email participant) (mailSubject b) mailBody'
             (isMarkdown b) code ;;
      try_catch (call_send m) (fun e => console_log e) ;;
      deliver_all b mailBody' code rest
  end.

(** [axios.create({baseURL, timeout: 1000, headers: {Authorization}})] *)
Definition axios_create (accessToken : option string) : AxiosConfig :=
  {| baseURL := BASE_URL E; timeout := 1000; Authorization := accessToken |}.

Definition sendMail (req : Request) : Eff unit :=
  let errors := validate_sendMail req in
  let accessToken := x_access_token req in
  match errors with
  | _ :: _ => respond 422 (ValidationFailed errors)
  | [] =>
      let b := body req in
      let mailBody' := sanitized_mailBody b in
      let instance := axios_create accessToken in
      response <- resolve_audience instance b ;;
      match response with
      | None => respond 500 (EmptyParticipants "Participant list is empty")
      | Some r =>
          l <- read_rs r ;;
          if Nat.eqb (length l) 0 then
            respond 500 (EmptyParticipants "Participant list is empty")
          else
            respond 200 (SuccessCount (length l)) ;;
            code <- derive_code_before_loop b ;;
            deliver_all b mailBody' code l
      end
  end.

(** ** POST /sendMail/:customEmail *)

Definition sendCustomMail (req : Request) : Eff unit :=
  let errors := validate_sendCustomMail req in
  match errors with
  | _ :: _ => respond 422 (ValidationFailed errors)
  | [] =>
      let b := body req in
      let mailBody' := sanitized_mailBody b in
      code <- try_catch
                (token <- call_md5 (customEmail req ++ eventName b) ;;
                 url <- call_toDataURL token ;;
                 ret (Some url))
                (fun e => console_log e ;; ret None) ;;
      m <- build_msg (customEmail req) (mailSubject b) mailBody'
             (isMarkdown b) code ;;
      try_catch
        (call_send m ;; respond 200 Success)
        (fun e => console_log e ;; respond 500 (MailNotSent e))
  end.

End Routes.

(** ** Observations on a trace *)

(** Messages handed to the delivery provider, in order. *)
Fixpoint sends (t : list Event) : list Message :=
  match t with
  | [] => []
  | EvSend m :: t' => m :: sends t'
  | _ :: t' => sends t'
  end.

(** What the caller receives: the status and body of each [res.send]. *)
Fixpoint responses (t : list Event) : list (nat * ResponseBody) :=
  match t with
  | [] => []
  | EvRespond s b :: t' => (s, b) :: responses t'
  | _ :: t' => responses t'
  end.

(** Tokens handed to the credential encoder. *)
Fixpoint qr_tokens (t : list Event) : list string :=
  match t with
  | [] => []
  | EvQr k :: t' => k :: qr_tokens t'
  | _ :: t' => qr_tokens t'
  end.

(** Errors written to the console. *)
Fixpoint logged (t : list Event) : list JsError :=
  match t with
  | [] => []
  | EvLog e :: t' => e :: logged t'
  | _ :: t' => logged t'
  end.

(** Events of the per-recipient pipeline: token derivation, credential
    encoding, body rendering and delivery. *)
Definition is_dispatch (ev : Event) : bool :=
  match ev with
  | EvMd5 _ | EvQr _ | EvMakeHtml _ | EvSend _ => true
  | EvPost _ _ _ | EvLog _ | EvRespond _ _ => false
  end.

(** ** Collaborator replacement

    The same deployment with another credential encoder and another
    delivery provider. *)
Definition with_delivery (E : Collaborators)
    (qr' : string -> JsError + string) (send' : Message -> option JsError)
  : Collaborators :=
  {| BASE_URL := BASE_URL E; FROM_EMAIL := FROM_EMAIL E; md5 := md5 E;
     qr_toDataURL := qr'; converter_makeHtml := converter_makeHtml E;
     mail_send := send'; instance_post := instance_post E;
     isEmail := isEmail E; isBoolean := isBoolean E; isInt := isInt E;
     trim := trim E; escape := escape E |}.

Definition set_sendTo (s : string) (req : Request) : Request :=
  {| body := {| eventName := eventName (body req);
                mailSubject := mailSubject (body req);
                mailBody := mailBody (body req);
                sendTo := s;
                gender := gender (body req);
                isMarkdown := isMarkdown (body req);
                body_day := body_day (body req);
                body_specific := body_specific (body req) |};
     customEmail := customEmail req;
     x_access_token := x_access_token req |}.

(** ** The upstream query of each [sendTo] case *)

Definition gender_query (b : Body) : Query :=
  {| key := "gender"; value := gender_code (gender b);
     specific := body_specific b |}.

(** The url and data that the case of the switch taken for [sendTo b]
    posts; [None] where no case matches. *)
Definition upstream_query (b : Body) : option (string * Payload) :=
  if String.eqb (sendTo b) "absent" then
    Some ("simple-projection/project-absent",
          {| event := eventName b; day := Some (body_day b); query := gender_query b |})
  else if String.eqb (sendTo b) "present" then
    Some ("simple-projection/project-absent",
          {| event := eventName b; day := Some (body_day b); query := gender_query b |})
  else if String.eqb (sendTo b) "both" then
    Some ("simple-projection/project-all",
          {| event := eventName b; day := None; query := gender_query b |})
  else None.

(** ** The parts of a message

    What the message literal evaluates to, given the deployment [E]. *)
Section Parts.

Variable E : Collaborators.

(** The call the [html] property makes, if any, and its value. *)
Definition rendering (md : JsValue) (text : string) : list Event :=
  if truthy md then [EvMakeHtml text] else [].

Definition rendered (md : JsValue) (text : string) : string :=
  if truthy md then converter_makeHtml E text else text.

Definition qr_attachment (code : string) : Attachment :=
  {| content := strip_data_header code; filename := "qrcode.png";
     type := "image/png"; disposition := "attachment" |}.

(** The token and the message of the direct route. *)
Definition direct_token (req : Request) : string :=
  md5 E (customEmail req ++ eventName (body req)).

Definition direct_msg (req : Request) (code : string) : Message :=
  {| msg_to := customEmail req; msg_from := FROM_EMAIL E;
     subject := mailSubject (body req);
     html := rendered (isMarkdown (body req)) (sanitized_mailBody E (body req));
     attachments := [qr_attachment code] |}.

End Parts.

(** ** A test deployment

    Stand-ins for the libraries, used to run the handlers on concrete
    requests.  The validators accept the usual spellings only; the
    sanitizers and the hash are left symbolic in the strings they return. *)
Module Fixture.

Fixpoint all_digits (s : string) : bool :=
  match s with
  | EmptyString => true
  | String c s' =>
      (Nat.leb 48 (nat_of_ascii c) && Nat.leb (nat_of_ascii c) 57 && all_digits s')%bool
  end.

Fixpoint has_at (s : string) : bool :=
  match s with
  | EmptyString => false
  | String c s' => (Ascii.eqb c "@" || has_at s')%bool
  end.

Definition the_md5 (s : string) : string := ("md5(" ++ s ++ ")")%string.

Definition the_qr (token : string) : JsError + string :=
  inr ("data:image/png;base64," ++ token)%string.

(** An encoder that rejects one token. *)
Definition qr_rejecting (bad : string) (token : string) : JsError + string :=
  if String.eqb token bad then inl (LibraryError "encoding failed")
  else the_qr token.

Definition the_send (m : Message) : option JsError := None.

Definition send_rejecting (m : Message) : option JsError :=
  Some (LibraryError "Bad Request").

Definition registry_of (r : JsError + RegistryResponse)
  : AxiosConfig -> string -> Payload -> JsError + RegistryResponse :=
  fun _ _ _ => r.

Definition env (qr' : string -> JsError + string)
    (send' : Message -> option JsError) (r : JsError + RegistryResponse)
  : Collaborators :=
  {| BASE_URL := "http://registry.local/"; FROM_EMAIL := "noreply@hades.local";
     md5 := the_md5; qr_toDataURL := qr'; converter_makeHtml := fun s => ("<p>" ++ s ++ "</p>")%string;
     mail_send := send'; instance_post := registry_of r;
     isEmail := has_at;
     isBoolean := isIn ["true"; "false"; "1"; "0"];
     isInt := fun s => (negb (isEmpty s) && all_digits s)%bool;
     trim := fun s => s; escape := fun s => s |}.

Definition fest (to : string) : Body :=
  {| eventName := "Fest"; mailSubject := "Welcome"; mailBody := "hi";
     sendTo := to; gender := "both"; isMarkdown := JBool false;
     body_day := JNum 2; body_specific := JUndefined |}.

Definition batch_request (to : string) : Request :=
  {| body := fest to; customEmail := ""; x_access_token := Some "secret" |}.

Definition direct_request (address : string) : Request :=
  {| body := fest ""; customEmail := address; x_access_token := None |}.

Definition alice : Participant := {| email := "alice@x.org" |}.
Definition bob : Participant := {| email := "bob@x.org" |}.
Definition carol : Participant := {| email := "carol@x.org" |}.

Definition resolved (l : list Participant) : JsError + RegistryResponse :=
  inr {| rs := Some l |}.

(** The example of the specification: event "Fest", day 2, audience
    'both', and a registry that returns three participants. *)
Definition fest_env : Collaborators :=
  env the_qr the_send (resolved [alice; bob; carol]).

(** The same, with an encoder that rejects the token of one participant. *)
Definition bob_rejected_env : Collaborators :=
  env (qr_rejecting (the_md5 "bob@x.orgFest")) the_send
      (resolved [alice; bob; carol]).

(** A deployment whose encoder rejects the token of a direct send. *)
Definition alice_rejected_env : Collaborators :=
  env (qr_rejecting (the_md5 "alice@x.orgFest")) the_send (resolved []).

End Fixture.

(** ** Further observations and request updates *)

(** Calls made to the registry: the client configuration, the url and the
    data of each post, in order. *)
Fixpoint posts (t : list Event) : list (AxiosConfig * string * Payload) :=
  match t with
  | [] => []
  | EvPost cfg url data :: t' => (cfg, url, data) :: posts t'
  | _ :: t' => posts t'
  end.

(** Strings handed to md5. *)
Fixpoint md5_inputs (t : list Event) : list string :=
  match t with
  | [] => []
  | EvMd5 s :: t' => s :: md5_inputs t'
  | _ :: t' => md5_inputs t'
  end.

(** Texts handed to the markdown converter. *)
Fixpoint rendered_texts (t : list Event) : list string :=
  match t with
  | [] => []
  | EvMakeHtml s :: t' => s :: rendered_texts t'
  | _ :: t' => rendered_texts t'
  end.


Definition set_gender (g : string) (req : Request) : Request :=
  {| body := {| eventName := eventName (body req);
                mailSubject := mailSubject (body req);
                mailBody := mailBody (body req);
                sendTo := sendTo (body req);
                gender := g;
                isMarkdown := isMarkdown (body req);
                body_day := body_day (body req);
                body_specific := body_specific (body req) |};
     customEmail := customEmail req;
     x_access_token := x_access_token req |}.

(** ** Process start-up ([app.js])

    The top-level statements of the entry file, as the list of what the
    process does.  [env] is [process.env]; [listen] tells how
    [app.listen] ends for the value it is given. *)
Module Startup.

Inductive BootEvent : Type :=
| BootSetApiKey (apiKey : option string)  (* mail.setApiKey, on requiring the routes *)
| BootLog (line : string)                 (* console.log *)
| BootExit                                (* process.exit() *)
| BootUseUrlencoded (extended : bool)     (* app.use(bodyParser.urlencoded({extended})) *)
| BootUseJson                             (* app.use(bodyParser.json()) *)
| BootMount (path : string)               (* app.use(path, routes) *)
| BootListen (port : JsValue)             (* app.listen(appPort, callback) *)
| BootUncaught (e : JsError).             (* an error nothing catches: the process dies *)

(** How [app.listen] ends.  The server is bound to a TCP port, and
    [server.address()] is an object with that port (below 65536); or it is
    bound to a pipe, as for a PORT that is not a number, and
    [server.address()] is a string, whose [port] is undefined; or
    listening fails (port in use, port out of range) and the error, which
    the file does not handle, ends the process before the callback runs. *)
Inductive ListenOutcome : Type :=
| BoundToPort (bound : Z)
| BoundToPipe
| ListenFailed (e : JsError).

(** [!process.env.NAME]: the variable is missing or is the empty string. *)
Definition unset (v : option string) : bool :=
  match v with
  | None => true
  | Some s => String.eqb s ""
  end.

(** [appPort = process.env.PORT || 4000] *)
Definition appPort (env : string -> option string) : JsValue :=
  match env "PORT" with
  | None => JNum 4000
  | Some s => if String.eqb s "" then JNum 4000 else JStr s
  end.

Definition main (env : string -> option string)
    (listen : JsValue -> ListenOutcome) : list BootEvent :=
  BootSetApiKey (env "SENDGRID_API_KEY") ::
  if unset (env "SENDGRID_API_KEY") then
    [BootLog "Environment variable SENDGRID_API_KEY is not set. Exiting."; BootExit]
  else if unset (env "BASE_URL") then
    [BootLog "Environment variable BASE_URL is not set. Exiting"; BootExit]
  else if unset (env "FROM_EMAIL") then
    [BootLog "Environment variable FROM_EMAIL is not set. Exiting"; BootExit]
  else
    BootUseUrlencoded false :: BootUseJson :: BootMount "/api/v1/"
    :: BootListen (appPort env)
    :: match listen (appPort env) with
       | BoundToPort bound =>
           [BootLog ("Service is up and running on port "
                     ++ toString (JNum bound) ++ ".")%string]
       | BoundToPipe =>
           [BootLog "Service is up and running on port undefined."]
       | ListenFailed e => [BootUncaught e]
       end.

(** Ports the process asked to listen on, and the number of exits. *)
Definition listens (t : list BootEvent) : list JsValue :=
  flat_map (fun ev => match ev with BootListen p => [p] | _ => [] end) t.

Definition exits (t : list BootEvent) : nat :=
  length (filter (fun ev => match ev with BootExit => true | _ => false end) t).

(** A sample environment: the three required variables and no PORT. *)
Definition sample_env (name : string) : option string :=
  if String.eqb name "SENDGRID_API_KEY" then Some "SG.key"
  else if String.eqb name "BASE_URL" then Some "http://registry.local/"
  else if String.eqb name "FROM_EMAIL" then Some "noreply@hades.local"
  else None.

(** The same without [FROM_EMAIL] and with an empty [BASE_URL]. *)
Definition broken_env (name : string) : option string :=
  if String.eqb name "SENDGRID_API_KEY" then Some "SG.key"
  else if String.eqb name "BASE_URL" then Some ""
  else None.

End Startup.

(** ** Basic equations of the monad *)

Lemma bind_normal {A B} (t : list Event) (a : A) (k : A -> Eff B) :
  bind (t, Normal a) k = (t ++ fst (k a), snd (k a)).
Proof. reflexivity. Qed.

Lemma bind_throw {A B} (t : list Event) (e : JsError) (k : A -> Eff B) :
  bind (t, Throw e) k = (t, Throw e).
Proof. reflexivity. Qed.

(** The observations distribute over concatenation of traces. *)
Ltac by_event_cases t :=
  let ev := fresh "ev" in
  let IH := fresh "IH" in
  induction t as [|ev t IH]; simpl; [reflexivity|];
  destruct ev; simpl; rewrite ?IH; reflexivity.

Lemma sends_app (t u : list Event) : sends (t ++ u) = sends t ++ sends u.
Proof. by_event_cases t. Qed.

Lemma responses_app (t u : list Event) :
  responses (t ++ u) = responses t ++ responses u.
Proof. by_event_cases t. Qed.

Lemma qr_tokens_app (t u : list Event) :
  qr_tokens (t ++ u) = qr_tokens t ++ qr_tokens u.
Proof. by_event_cases t. Qed.

Lemma logged_app (t u : list Event) : logged (t ++ u) = logged t ++ logged u.
Proof. by_event_cases t. Qed.

Section RouteFacts.

Variable E : Collaborators.

(** The switch posts [upstream_query] inside a try/catch that logs. *)
Lemma resolve_audience_posts (cfg : AxiosConfig) (b : Body) :
  resolve_audience E cfg b =
  match upstream_query b with
  | Some (url, data) =>
      try_catch (r <- call_post E cfg url data ;; ret (Some r))
                (fun e => console_log e ;; ret None)
  | None => ret None
  end.
Proof.
  unfold resolve_audience, upstream_query, gender_query.
  destruct (String.eqb (sendTo b) "absent"); [reflexivity|].
  destruct (String.eqb (sendTo b) "present"); [reflexivity|].
  destruct (String.eqb (sendTo b) "both"); reflexivity.
Qed.

Lemma resolve_audience_answered cfg b url data r :
  upstream_query b = Some (url, data) ->
  instance_post E cfg url data = inr r ->
  resolve_audience E cfg b = ([EvPost cfg url data], Normal (Some r)).
Proof.
  intros Hq Hp. rewrite resolve_audience_posts, Hq.
  unfold call_post. simpl. rewrite Hp. reflexivity.
Qed.

Lemma resolve_audience_failed cfg b url data e :
  upstream_query b = Some (url, data) ->
  instance_post E cfg url data = inl e ->
  resolve_audience E cfg b = ([EvPost cfg url data; EvLog e], Normal None).
Proof.
  intros Hq Hp. rewrite resolve_audience_posts, Hq.
  unfold call_post. simpl. rewrite Hp. reflexivity.
Qed.

(** Resolution never throws and involves the registry and the console
    only. *)
Lemma resolve_audience_quiet cfg b :
  exists t response,
    resolve_audience E cfg b = (t, Normal response)
    /\ forallb (fun ev => negb (is_dispatch ev)) t = true
    /\ responses t = [] /\ sends t = [].
Proof.
  rewrite resolve_audience_posts.
  destruct (upstream_query b) as [[url data]|].
  - unfold call_post. simpl.
    destruct (instance_post E cfg url data) as [e|r]; simpl;
      eexists; eexists; (split; [reflexivity|]); repeat split.
  - exists [], None. repeat split.
Qed.

Lemma resolve_audience_trace cfg b t response :
  resolve_audience E cfg b = (t, response) ->
  forallb (fun ev => negb (is_dispatch ev)) t = true
  /\ responses t = [] /\ sends t = [].
Proof.
  intros H. destruct (resolve_audience_quiet cfg b) as (t' & r' & Heq & Hd & Hr & Hs).
  rewrite Heq in H. injection H as <- _. auto.
Qed.

(** *** The message literal and the loop *)

Lemma build_msg_undefined recipient s text md :
  build_msg E recipient s text md None =
  (rendering md text,
   Throw (TypeError "Cannot read property 'replace' of undefined")).
Proof.
  unfold build_msg, rendering, call_makeHtml. destruct (truthy md); reflexivity.
Qed.

Lemma build_msg_defined recipient s text md code :
  build_msg E recipient s text md (Some code) =
  (rendering md text,
   Normal {| msg_to := recipient; msg_from := FROM_EMAIL E; subject := s;
             html := rendered E md text;
             attachments := [qr_attachment code] |}).
Proof.
  unfold build_msg, rendering, rendered, call_makeHtml, qr_attachment.
  destruct (truthy md); reflexivity.
Qed.

Lemma derive_code_before_loop_undefined b :
  derive_code_before_loop E b =
  ([EvLog (ReferenceError "participant")], Normal None).
Proof. reflexivity. Qed.

Lemma deliver_all_undefined b text p l :
  deliver_all E b text None (p :: l) =
  (rendering (isMarkdown b) text,
   Throw (TypeError "Cannot read property 'replace' of undefined")).
Proof.
  simpl. rewrite build_msg_undefined. reflexivity.
Qed.

(** With a credential at hand the loop hands one message per participant
    to the provider, whatever the provider answers, and completes. *)
Lemma deliver_all_defined b text code l :
  sends (trace (deliver_all E b text (Some code) l)) =
    map (fun p => {| msg_to := email p; msg_from := FROM_EMAIL E;
                     subject := mailSubject b;
                     html := rendered E (isMarkdown b) text;
                     attachments := [qr_attachment code] |}) l
  /\ completion (deliver_all E b text (Some code) l) = Normal tt
  /\ responses (trace (deliver_all E b text (Some code) l)) = [].
Proof.
  induction l as [|p l (IHs & IHc & IHr)]; [repeat split|].
  cbn [deliver_all]. rewrite build_msg_defined.
  set (m := {| msg_to := email p |}) in *.
  destruct (deliver_all E b text (Some code) l) as [t c].
  unfold trace, completion in *. simpl in IHs, IHc, IHr. subst c.
  assert (Hr : forall u, responses (rendering (isMarkdown b) text ++ u) = responses u).
  { intros u. unfold rendering. destruct (truthy (isMarkdown b)); reflexivity. }
  assert (Hs : forall u, sends (rendering (isMarkdown b) text ++ u) = sends u).
  { intros u. unfold rendering. destruct (truthy (isMarkdown b)); reflexivity. }
  unfold call_send, console_log. simpl.
  destruct (mail_send E m); simpl; rewrite ?Hr, ?Hs; simpl;
    rewrite ?IHr, ?IHs; repeat split.
Qed.

(** The loop reads the subject and the markdown flag of the body only. *)
Lemma deliver_all_body b b' text code l :
  mailSubject b = mailSubject b' -> isMarkdown b = isMarkdown b' ->
  deliver_all E b text code l = deliver_all E b' text code l.
Proof.
  intros Hs Hm. induction l as [|p l IH]; [reflexivity|].
  cbn [deliver_all]. rewrite Hs, Hm.
  destruct (build_msg E (email p) (mailSubject b') text (isMarkdown b') code)
    as [t [m|e]]; [|reflexivity].
  rewrite !bind_normal.
  destruct (try_catch (call_send E m) (fun e => console_log e)) as [u [[]|e]];
    [|reflexivity].
  rewrite !bind_normal, IH. reflexivity.
Qed.

(** The loop never answers on [res]. *)
Lemma deliver_all_no_response b text code l :
  responses (trace (deliver_all E b text code l)) = [].
Proof.
  destruct code as [code|].
  - apply deliver_all_defined.
  - destruct l as [|p l]; [reflexivity|].
    rewrite deliver_all_undefined. unfold trace, rendering. simpl.
    destruct (truthy (isMarkdown b)); reflexivity.
Qed.

(** The batch handler once the audience is resolved and not empty. *)
Lemma sendMail_resolved req t r l :
  validate_sendMail E req = [] ->
  resolve_audience E (axios_create E (x_access_token req)) (body req)
    = (t, Normal (Some r)) ->
  rs r = Some l -> l <> [] ->
  sendMail E req =
  (t ++ EvRespond 200 (SuccessCount (length l))
     :: EvLog (ReferenceError "participant")
     :: rendering (isMarkdown (body req)) (sanitized_mailBody E (body req)),
   Throw (TypeError "Cannot read property 'replace' of undefined")).
Proof.
  intros Hv Hres Hrs Hne. unfold sendMail. rewrite Hv. cbv zeta.
  rewrite Hres, bind_normal. unfold read_rs. rewrite Hrs. simpl.
  destruct l as [|p l]; [contradiction|].
  cbn [length Nat.eqb]. unfold respond. simpl.
  rewrite build_msg_undefined. reflexivity.
Qed.

(** The batch handler when nothing was resolved. *)
Lemma sendMail_unresolved req t response :
  validate_sendMail E req = [] ->
  resolve_audience E (axios_create E (x_access_token req)) (body req)
    = (t, Normal response) ->
  (response = None \/ exists r, response = Some r /\ rs r = Some []) ->
  sendMail E req
    = (t ++ [EvRespond 500 (EmptyParticipants "Participant list is empty")],
       Normal tt).
Proof.
  intros Hv Hres Hcase.
  unfold sendMail. rewrite Hv. cbv zeta. rewrite Hres, bind_normal.
  destruct Hcase as [-> | (r & -> & Hrs)].
  - reflexivity.
  - unfold read_rs. rewrite Hrs. reflexivity.
Qed.

End RouteFacts.

(** * The batch route *)

(** C2.  On the batch route the credential is derived once, before the
    loop, from the identifier [participant], which is declared only by the
    [for ... of] that follows.  So for every request that passes validation
    and resolves to a non-empty list: the derivation throws a
    ReferenceError that is caught and logged, [code] stays undefined,
    building the message of any recipient throws at [code.replace], the
    handler ends with that TypeError after having sent the success
    response, and neither the encoder nor the delivery provider is ever
    called. *)
Theorem batch_never_delivers (E : Collaborators) (req : Request)
    (t : list Event) (r : RegistryResponse) (l : list Participant) :
  validate_sendMail E req = [] ->
  resolve_audience E (axios_create E (x_access_token req)) (body req)
    = (t, Normal (Some r)) ->
  rs r = Some l -> l <> [] ->
  derive_code_before_loop E (body req)
    = ([EvLog (ReferenceError "participant")], Normal None)
  /\ (forall p, completion (build_msg E (email p) (mailSubject (body req))
                   (sanitized_mailBody E (body req)) (isMarkdown (body req)) None)
                = Throw (TypeError "Cannot read property 'replace' of undefined"))
  /\ completion (sendMail E req)
     = Throw (TypeError "Cannot read property 'replace' of undefined")
  /\ responses (trace (sendMail E req)) = [(200, SuccessCount (length l))]
  /\ sends (trace (sendMail E req)) = []
  /\ qr_tokens (trace (sendMail E req)) = [].
Proof.
  intros Hv Hres Hrs Hne.
  destruct (resolve_audience_trace E _ _ _ _ Hres) as (Hd & Hr & Hs).
  split; [apply derive_code_before_loop_undefined|].
  split; [intros p; rewrite build_msg_undefined; reflexivity|].
  rewrite (sendMail_resolved E req t r l Hv Hres Hrs Hne).
  unfold trace, completion; simpl.
  rewrite responses_app, sends_app, qr_tokens_app, Hr, Hs. simpl.
  assert (Hq : qr_tokens t = []).
  { clear - Hd. induction t as [|ev u IH]; [reflexivity|].
    simpl in Hd. apply andb_prop in Hd. destruct Hd as [Hev Hu].
    destruct ev; simpl in *; try discriminate; auto. }
  rewrite Hq. unfold rendering.
  destruct (truthy (isMarkdown (body req))); repeat split.
Qed.

Lemma batch_never_delivers_witness :
  let E := Fixture.env Fixture.the_qr Fixture.the_send
             (Fixture.resolved [Fixture.alice; Fixture.bob]) in
  let req := Fixture.batch_request "present" in
  validate_sendMail E req = []
  /\ completion (sendMail E req)
     = Throw (TypeError "Cannot read property 'replace' of undefined")
  /\ responses (trace (sendMail E req)) = [(200, SuccessCount 2)]
  /\ sends (trace (sendMail E req)) = [].
Proof.
  intros E req.
  pose proof (batch_never_delivers E req
    [EvPost (axios_create E (x_access_token req))
       "simple-projection/project-absent"
       {| event := "Fest"; day := Some (JNum 2);
          query := {| key := "gender"; value := "M"; specific := JUndefined |} |}]
    {| rs := Some [Fixture.alice; Fixture.bob] |}
    [Fixture.alice; Fixture.bob]
    eq_refl eq_refl eq_refl
    ltac:(discriminate))
    as (_ & _ & Hc & Hr & Hs & _).
  split; [reflexivity|]. split; [exact Hc|]. split; [exact Hr | exact Hs].
Defined.

(** C4.  For every request that passes validation and resolves to a
    non-empty list, the handler answers 200 with the number of resolved
    participants and only then runs the derivation and the delivery loop:
    nothing was handed to the provider before the answer, the loop never
    answers again, and the answer is the same whatever the credential
    encoder and the delivery provider do. *)
Theorem success_reported_before_delivery (E : Collaborators) (req : Request)
    (t : list Event) (r : RegistryResponse) (l : list Participant) :
  validate_sendMail E req = [] ->
  resolve_audience E (axios_create E (x_access_token req)) (body req)
    = (t, Normal (Some r)) ->
  rs r = Some l -> l <> [] ->
  trace (sendMail E req)
    = t ++ EvRespond 200 (SuccessCount (length l))
        :: trace (code <- derive_code_before_loop E (body req) ;;
                  deliver_all E (body req) (sanitized_mailBody E (body req)) code l)
  /\ sends t = [] /\ responses t = []
  /\ (forall code,
        responses (trace (deliver_all E (body req)
                            (sanitized_mailBody E (body req)) code l)) = [])
  /\ (forall qr' send',
        responses (trace (sendMail (with_delivery E qr' send') req))
        = [(200, SuccessCount (length l))]).
Proof.
  intros Hv Hres Hrs Hne.
  destruct (resolve_audience_trace E _ _ _ _ Hres) as (Hd & Hr & Hs).
  split.
  { unfold sendMail. rewrite Hv. cbv zeta. rewrite Hres, bind_normal.
    unfold read_rs. rewrite Hrs. simpl.
    destruct l as [|p l]; [contradiction|]. reflexivity. }
  split; [exact Hs|]. split; [exact Hr|].
  split; [intros code; apply deliver_all_no_response|].
  intros qr' send'.
  rewrite (sendMail_resolved (with_delivery E qr' send') req t r l Hv Hres Hrs Hne).
  unfold trace; simpl. rewrite responses_app, Hr. simpl.
  unfold rendering. destruct (truthy (isMarkdown (body req))); reflexivity.
Qed.

Lemma success_reported_before_delivery_witness :
  let E := Fixture.env Fixture.the_qr Fixture.the_send
             (Fixture.resolved [Fixture.alice; Fixture.bob; Fixture.carol]) in
  let req := Fixture.batch_request "both" in
  validate_sendMail E req = []
  /\ (forall qr' send',
        responses (trace (sendMail (with_delivery E qr' send') req))
        = [(200, SuccessCount 3)]).
Proof.
  intros E req.
  pose proof (success_reported_before_delivery E req
    [EvPost (axios_create E (x_access_token req))
       "simple-projection/project-all"
       {| event := "Fest"; day := None;
          query := {| key := "gender"; value := "M"; specific := JUndefined |} |}]
    {| rs := Some [Fixture.alice; Fixture.bob; Fixture.carol] |}
    [Fixture.alice; Fixture.bob; Fixture.carol]
    eq_refl eq_refl eq_refl
    ltac:(discriminate))
    as (_ & _ & _ & _ & H).
  split; [reflexivity | exact H].
Defined.

(** C5.  When the registry call of a validated batch request fails (an
    upstream error or the timeout), the error is caught and logged, the
    handler goes on to the cardinality check with [response] undefined and
    answers 500 EmptyParticipants, and returns.  The caller receives
    exactly what it receives from a deployment whose registry answers the
    same query with an empty list. *)
Theorem registry_failure_reported_as_empty (E E' : Collaborators)
    (req : Request) (url : string) (data : Payload) (e : JsError) :
  validate_sendMail E req = [] ->
  upstream_query (body req) = Some (url, data) ->
  instance_post E (axios_create E (x_access_token req)) url data = inl e ->
  validate_sendMail E' req = [] ->
  instance_post E' (axios_create E' (x_access_token req)) url data
    = inr {| rs := Some [] |} ->
  sendMail E req
    = ([EvPost (axios_create E (x_access_token req)) url data;
        EvLog e;
        EvRespond 500 (EmptyParticipants "Participant list is empty")],
       Normal tt)
  /\ responses (trace (sendMail E req))
     = [(500, EmptyParticipants "Participant list is empty")]
  /\ responses (trace (sendMail E req)) = responses (trace (sendMail E' req)).
Proof.
  intros Hv Hq Hfail Hv' Hempty.
  assert (H : sendMail E req
    = ([EvPost (axios_create E (x_access_token req)) url data;
        EvLog e;
        EvRespond 500 (EmptyParticipants "Participant list is empty")],
       Normal tt)).
  { unfold sendMail. rewrite Hv. cbv zeta.
    rewrite (resolve_audience_failed E _ _ _ _ _ Hq Hfail). reflexivity. }
  assert (H' : sendMail E' req
    = ([EvPost (axios_create E' (x_access_token req)) url data;
        EvRespond 500 (EmptyParticipants "Participant list is empty")],
       Normal tt)).
  { unfold sendMail. rewrite Hv'. cbv zeta.
    rewrite (resolve_audience_answered E' _ _ _ _ _ Hq Hempty). reflexivity. }
  rewrite H, H'. repeat split.
Qed.

Lemma registry_failure_reported_as_empty_witness :
  let failing := Fixture.env Fixture.the_qr Fixture.the_send
                   (inl (LibraryError "timeout of 1000ms exceeded")) in
  let empty := Fixture.env Fixture.the_qr Fixture.the_send (Fixture.resolved []) in
  let req := Fixture.batch_request "absent" in
  responses (trace (sendMail failing req))
    = [(500, EmptyParticipants "Participant list is empty")]
  /\ responses (trace (sendMail failing req)) = responses (trace (sendMail empty req)).
Proof.
  intros failing empty req.
  exact (proj2 (registry_failure_reported_as_empty failing empty req
    "simple-projection/project-absent"
    {| event := "Fest"; day := Some (JNum 2);
       query := {| key := "gender"; value := "M"; specific := JUndefined |} |}
    (LibraryError "timeout of 1000ms exceeded")
    eq_refl eq_refl eq_refl eq_refl eq_refl)).
Defined.

(** The two cases that the test of line 178 covers.  When the
    resolution of a validated batch request leaves [response] undefined or
    yields a list with no entry, the handler answers 500 EmptyParticipants
    and returns: its whole trace is the resolution followed by that
    answer, with no token derivation, no credential encoding, no body
    rendering and no delivery attempt. *)
Theorem empty_audience_terminates (E : Collaborators) (req : Request)
    (t : list Event) (response : option RegistryResponse) :
  validate_sendMail E req = [] ->
  resolve_audience E (axios_create E (x_access_token req)) (body req)
    = (t, Normal response) ->
  (response = None \/ exists r, response = Some r /\ rs r = Some []) ->
  sendMail E req
    = (t ++ [EvRespond 500 (EmptyParticipants "Participant list is empty")],
       Normal tt)
  /\ forallb (fun ev => negb (is_dispatch ev)) (trace (sendMail E req)) = true
  /\ sends (trace (sendMail E req)) = []
  /\ responses (trace (sendMail E req))
     = [(500, EmptyParticipants "Participant list is empty")].
Proof.
  intros Hv Hres Hcase.
  destruct (resolve_audience_trace E _ _ _ _ Hres) as (Hd & Hr & Hs).
  rewrite (sendMail_unresolved E req t response Hv Hres Hcase).
  unfold trace; simpl.
  rewrite forallb_app, sends_app, responses_app, Hd, Hr, Hs. repeat split.
Qed.

Lemma empty_audience_terminates_witness :
  let E := Fixture.env Fixture.the_qr Fixture.the_send (Fixture.resolved []) in
  let req := Fixture.batch_request "both" in
  sends (trace (sendMail E req)) = []
  /\ responses (trace (sendMail E req))
     = [(500, EmptyParticipants "Participant list is empty")].
Proof.
  intros E req.
  pose proof (empty_audience_terminates E req
    [EvPost (axios_create E (x_access_token req))
       "simple-projection/project-all"
       {| event := "Fest"; day := None;
          query := {| key := "gender"; value := "M"; specific := JUndefined |} |}]
    (Some {| rs := Some [] |})
    eq_refl eq_refl
    (or_intror (ex_intro _ {| rs := Some [] |} (conj eq_refl eq_refl))))
    as (_ & _ & Hs & Hr).
  split; [exact Hs | exact Hr].
Defined.

(** C6.  The batch route when the resolution succeeds with a response
    that carries no list: validation passes, the post is answered, and the
    test [response.rs.length === 0] of line 178 throws on the missing
    [rs].  The handler ends with that TypeError right after the post:
    no EmptyParticipants answer, and no answer at all, reaches the
    caller. *)
Theorem empty_audience_without_list_unanswered :
  validate_sendMail
      (Fixture.env Fixture.the_qr Fixture.the_send (inr {| rs := None |}))
      (Fixture.batch_request "both") = []
  /\ resolve_audience
       (Fixture.env Fixture.the_qr Fixture.the_send (inr {| rs := None |}))
       (axios_create
          (Fixture.env Fixture.the_qr Fixture.the_send (inr {| rs := None |}))
          (Some "secret"))
       (body (Fixture.batch_request "both"))
     = ([EvPost {| baseURL := "http://registry.local/"; timeout := 1000;
                   Authorization := Some "secret" |}
           "simple-projection/project-all"
           {| event := "Fest"; day := None;
              query := {| key := "gender"; value := "M";
                          specific := JUndefined |} |}],
        Normal (Some {| rs := None |}))
  /\ sendMail
       (Fixture.env Fixture.the_qr Fixture.the_send (inr {| rs := None |}))
       (Fixture.batch_request "both")
     = ([EvPost {| baseURL := "http://registry.local/"; timeout := 1000;
                   Authorization := Some "secret" |}
           "simple-projection/project-all"
           {| event := "Fest"; day := None;
              query := {| key := "gender"; value := "M";
                          specific := JUndefined |} |}],
        Throw (TypeError "Cannot read property 'length' of undefined"))
  /\ responses (trace (sendMail
       (Fixture.env Fixture.the_qr Fixture.the_send (inr {| rs := None |}))
       (Fixture.batch_request "both"))) = [].
Proof. repeat split. Qed.

(** C7.  Two batch requests that differ only in [sendTo], 'absent' in one
    and 'present' in the other, issue the same upstream query: both post
    to 'simple-projection/project-absent' the event, the day and the
    gender query.  The two cases of the switch, and with them the two runs
    of the handler, are equal. *)
Theorem absent_present_same_query (E : Collaborators) (req : Request) :
  upstream_query (body (set_sendTo "absent" req))
    = Some ("simple-projection/project-absent",
            {| event := eventName (body req);
               day := Some (body_day (body req));
               query := {| key := "gender";
                           value := gender_code (gender (body req));
                           specific := body_specific (body req) |} |})
  /\ upstream_query (body (set_sendTo "absent" req))
     = upstream_query (body (set_sendTo "present" req))
  /\ (forall cfg,
        resolve_audience E cfg (body (set_sendTo "absent" req))
        = resolve_audience E cfg (body (set_sendTo "present" req)))
  /\ (forall cfg, exists rest,
        trace (resolve_audience E cfg (body (set_sendTo "absent" req)))
        = EvPost cfg "simple-projection/project-absent"
            {| event := eventName (body req);
               day := Some (body_day (body req));
               query := {| key := "gender";
                           value := gender_code (gender (body req));
                           specific := body_specific (body req) |} |} :: rest)
  /\ sendMail E (set_sendTo "absent" req) = sendMail E (set_sendTo "present" req).
Proof.
  split; [reflexivity|]. split; [reflexivity|].
  split; [intros cfg; reflexivity|].
  split.
  - intros cfg. unfold resolve_audience, call_post. simpl.
    destruct (instance_post E cfg _ _); simpl; eexists; reflexivity.
  - unfold sendMail.
    change (validate_sendMail E (set_sendTo "present" req))
      with (validate_sendMail E (set_sendTo "absent" req)).
    destruct (validate_sendMail E (set_sendTo "absent" req)); [|reflexivity].
    cbv zeta.
    change (resolve_audience E
              (axios_create E (x_access_token (set_sendTo "present" req)))
              (body (set_sendTo "present" req)))
      with (resolve_audience E
              (axios_create E (x_access_token (set_sendTo "absent" req)))
              (body (set_sendTo "absent" req))).
    destruct (resolve_audience E _ (body (set_sendTo "absent" req)))
      as [t [[r|]|e]]; try reflexivity.
    rewrite !bind_normal. unfold read_rs.
    destruct (rs r) as [l|]; [|reflexivity].
    unfold ret. rewrite !bind_normal.
    destruct (Nat.eqb (length l) 0); [reflexivity|].
    unfold respond, emit. rewrite !bind_normal.
    rewrite !derive_code_before_loop_undefined, !bind_normal.
    rewrite (deliver_all_body E (body (set_sendTo "present" req))
               (body (set_sendTo "absent" req))); reflexivity.
Qed.

(** C1.  The batch route at the example of the specification (event
    "Fest", audience 'both', three participants with distinct addresses):
    the handler reports three participants, then throws before building
    any message, so nothing is handed to the delivery provider.  And were
    [code] defined, the loop would attach the one credential computed
    before the loop to every message: the attachment does not depend on
    the recipient. *)
Theorem batch_attachment_not_per_recipient :
  sendMail Fixture.fest_env (Fixture.batch_request "both")
    = ([EvPost (axios_create Fixture.fest_env (Some "secret"))
          "simple-projection/project-all"
          {| event := "Fest"; day := None;
             query := {| key := "gender"; value := "M"; specific := JUndefined |} |};
        EvRespond 200 (SuccessCount 3);
        EvLog (ReferenceError "participant")],
       Throw (TypeError "Cannot read property 'replace' of undefined"))
  /\ sends (trace (sendMail Fixture.fest_env (Fixture.batch_request "both"))) = []
  /\ forall E b text code,
       map attachments
         (sends (trace (deliver_all E b text (Some code)
                          [Fixture.alice; Fixture.bob; Fixture.carol])))
       = [[qr_attachment code]; [qr_attachment code]; [qr_attachment code]].
Proof.
  split; [reflexivity|]. split; [reflexivity|].
  intros E b text code.
  destruct (deliver_all_defined E b text code
              [Fixture.alice; Fixture.bob; Fixture.carol]) as (-> & _).
  reflexivity.
Qed.

(** C3.  The batch route with three resolved participants and an encoder
    that rejects the token of exactly one of them: the handler makes no
    delivery attempt (not two), the only error recorded is the
    ReferenceError of the derivation placed before the loop, the encoder
    is never called, and the handler does not run to completion but
    throws. *)
Theorem batch_encoding_failure_not_isolated :
  map (fun p => qr_toDataURL Fixture.bob_rejected_env
                  (md5 Fixture.bob_rejected_env (email p ++ "Fest")))
      [Fixture.alice; Fixture.bob; Fixture.carol]
    = [inr "data:image/png;base64,md5(alice@x.orgFest)";
       inl (LibraryError "encoding failed");
       inr "data:image/png;base64,md5(carol@x.orgFest)"]
  /\ sends (trace (sendMail Fixture.bob_rejected_env (Fixture.batch_request "both"))) = []
  /\ logged (trace (sendMail Fixture.bob_rejected_env (Fixture.batch_request "both")))
     = [ReferenceError "participant"]
  /\ qr_tokens (trace (sendMail Fixture.bob_rejected_env (Fixture.batch_request "both"))) = []
  /\ completion (sendMail Fixture.bob_rejected_env (Fixture.batch_request "both"))
     = Throw (TypeError "Cannot read property 'replace' of undefined").
Proof. repeat split. Qed.

(** * The direct route *)

Section DirectFacts.

Variable E : Collaborators.

(** The three ways a validated direct send ends. *)
Lemma sendCustomMail_validated req :
  validate_sendCustomMail E req = [] ->
  sendCustomMail E req =
  match qr_toDataURL E (direct_token E req) with
  | inl e =>
      (EvMd5 (customEmail req ++ eventName (body req))
       :: EvQr (direct_token E req) :: EvLog e
       :: rendering (isMarkdown (body req)) (sanitized_mailBody E (body req)),
       Throw (TypeError "Cannot read property 'replace' of undefined"))
  | inr code =>
      match mail_send E (direct_msg E req code) with
      | None =>
          (EvMd5 (customEmail req ++ eventName (body req))
           :: EvQr (direct_token E req)
           :: rendering (isMarkdown (body req)) (sanitized_mailBody E (body req))
           ++ [EvSend (direct_msg E req code); EvRespond 200 Success],
           Normal tt)
      | Some e =>
          (EvMd5 (customEmail req ++ eventName (body req))
           :: EvQr (direct_token E req)
           :: rendering (isMarkdown (body req)) (sanitized_mailBody E (body req))
           ++ [EvSend (direct_msg E req code); EvLog e;
               EvRespond 500 (MailNotSent e)],
           Normal tt)
      end
  end.
Proof.
  intros Hv. unfold sendCustomMail. rewrite Hv. cbv zeta.
  unfold call_md5, call_toDataURL, direct_token. simpl.
  destruct (qr_toDataURL E (md5 E (customEmail req ++ eventName (body req))))
    as [e|code]; simpl.
  - rewrite build_msg_undefined. reflexivity.
  - rewrite build_msg_defined. unfold call_send, direct_msg. simpl.
    destruct (mail_send E _); reflexivity.
Qed.

Lemma qr_tokens_rendering md text u :
  qr_tokens (rendering md text ++ u) = qr_tokens u.
Proof. unfold rendering. destruct (truthy md); reflexivity. Qed.

Lemma quiet_no_tokens (t : list Event) :
  forallb (fun ev => negb (is_dispatch ev)) t = true -> qr_tokens t = [].
Proof.
  induction t as [|ev t IH]; [reflexivity|].
  simpl. intros H. apply andb_prop in H. destruct H as [Hev Ht].
  destruct ev; simpl in *; try discriminate; auto.
Qed.

(** The batch route never reaches the credential encoder. *)
Lemma sendMail_never_encodes req : qr_tokens (trace (sendMail E req)) = [].
Proof.
  destruct (validate_sendMail E req) as [|v vs] eqn:Hv.
  2:{ unfold sendMail. rewrite Hv. reflexivity. }
  destruct (resolve_audience_quiet E (axios_create E (x_access_token req)) (body req))
    as (t & response & Hres & Hd & _).
  pose proof (quiet_no_tokens t Hd) as Hq.
  destruct response as [r|].
  - destruct (rs r) as [[|p l]|] eqn:Hrs.
    + rewrite (sendMail_unresolved E req t (Some r) Hv Hres); [|right; eauto].
      unfold trace. simpl. rewrite qr_tokens_app, Hq. reflexivity.
    + rewrite (sendMail_resolved E req t r (p :: l) Hv Hres Hrs); [|discriminate].
      unfold trace. simpl. rewrite qr_tokens_app, Hq. simpl.
      rewrite <- (app_nil_r (rendering _ _)), qr_tokens_rendering. reflexivity.
    + unfold sendMail. rewrite Hv. cbv zeta. rewrite Hres, bind_normal.
      unfold read_rs. rewrite Hrs. unfold trace. simpl.
      rewrite app_nil_r. exact Hq.
  - unfold sendMail. rewrite Hv. cbv zeta. rewrite Hres. unfold trace. simpl.
    rewrite qr_tokens_app, Hq. reflexivity.
Qed.

End DirectFacts.

(** C8.  A direct send that passes validation, with an encoder that
    rejects the token: the rejection is caught and logged, [code] stays
    undefined, and building the message throws at [code.replace] outside
    any try.  The handler ends with that TypeError: the provider is not
    called and nothing is sent on [res], so the caller is told of no
    outcome. *)
Theorem direct_encoding_failure_unreported :
  validate_sendCustomMail Fixture.alice_rejected_env
      (Fixture.direct_request "alice@x.org") = []
  /\ sendCustomMail Fixture.alice_rejected_env (Fixture.direct_request "alice@x.org")
     = ([EvMd5 "alice@x.orgFest"; EvQr "md5(alice@x.orgFest)";
         EvLog (LibraryError "encoding failed")],
        Throw (TypeError "Cannot read property 'replace' of undefined"))
  /\ responses (trace (sendCustomMail Fixture.alice_rejected_env
                         (Fixture.direct_request "alice@x.org"))) = []
  /\ sends (trace (sendCustomMail Fixture.alice_rejected_env
                     (Fixture.direct_request "alice@x.org"))) = [].
Proof. repeat split. Qed.

(** C9.  A direct send whose address fails [isEmail] is rejected at
    validation: the handler's only action is to answer 422
    ValidationFailed with the list of field errors, which names
    [customEmail] in [params]; no token is derived, no credential encoded
    and the delivery provider is not called. *)
Theorem invalid_address_rejected (E : Collaborators) (req : Request) :
  isEmail E (customEmail req) = false ->
  sendCustomMail E req
    = ([EvRespond 422 (ValidationFailed (validate_sendCustomMail E req))],
       Normal tt)
  /\ In {| msg := "Invalid value"; param := "customEmail"; location := "params" |}
        (validate_sendCustomMail E req)
  /\ forallb (fun ev => negb (is_dispatch ev)) (trace (sendCustomMail E req)) = true
  /\ sends (trace (sendCustomMail E req)) = [].
Proof.
  intros Hmail.
  assert (Hin : In {| msg := "Invalid value"; param := "customEmail";
                      location := "params" |}
                   (validate_sendCustomMail E req)).
  { unfold validate_sendCustomMail.
    do 4 (apply in_or_app; right).
    apply in_or_app; right.
    unfold link. rewrite Hmail. simpl. left. reflexivity. }
  assert (Hrun : sendCustomMail E req
    = ([EvRespond 422 (ValidationFailed (validate_sendCustomMail E req))],
       Normal tt)).
  { unfold sendCustomMail.
    destruct (validate_sendCustomMail E req) as [|v vs]; [contradiction|].
    reflexivity. }
  rewrite Hrun. repeat split. exact Hin.
Qed.

Lemma invalid_address_rejected_witness :
  isEmail Fixture.fest_env "alice.x.org" = false
  /\ sendCustomMail Fixture.fest_env (Fixture.direct_request "alice.x.org")
     = ([EvRespond 422
           (ValidationFailed
              [{| msg := "Invalid value"; param := "customEmail";
                  location := "params" |}])],
        Normal tt).
Proof.
  split; [reflexivity|].
  exact (proj1 (invalid_address_rejected Fixture.fest_env
                  (Fixture.direct_request "alice.x.org") eq_refl)).
Defined.

(** C10.  The token handed to the credential encoder is the md5 of the
    address followed by the event name, and nothing else: two validated
    direct sends with equal address and equal event name, under
    deployments that share the hash function and may differ in everything
    else, derive the same single token.  The batch route derives no token
    at all, so it yields no differing pair. *)
Theorem token_deterministic (E1 E2 : Collaborators) (r1 r2 batch : Request) :
  md5 E1 = md5 E2 ->
  validate_sendCustomMail E1 r1 = [] ->
  validate_sendCustomMail E2 r2 = [] ->
  customEmail r1 = customEmail r2 ->
  eventName (body r1) = eventName (body r2) ->
  qr_tokens (trace (sendCustomMail E1 r1))
    = [md5 E1 (customEmail r1 ++ eventName (body r1))]
  /\ qr_tokens (trace (sendCustomMail E1 r1))
     = qr_tokens (trace (sendCustomMail E2 r2))
  /\ qr_tokens (trace (sendMail E1 batch)) = []
  /\ qr_tokens (trace (sendMail E2 batch)) = [].
Proof.
  intros Hmd5 Hv1 Hv2 Hmail Hname.
  assert (Htok : forall E r, validate_sendCustomMail E r = [] ->
            qr_tokens (trace (sendCustomMail E r))
            = [md5 E (customEmail r ++ eventName (body r))]).
  { intros E r Hv. rewrite (sendCustomMail_validated E r Hv).
    unfold direct_token.
    destruct (qr_toDataURL E _) as [e|code]; [|destruct (mail_send E _)];
      unfold trace; simpl;
      rewrite ?qr_tokens_rendering;
      try (rewrite <- (app_nil_r (rendering _ _)), qr_tokens_rendering);
      reflexivity. }
  rewrite (Htok E1 r1 Hv1), (Htok E2 r2 Hv2), Hmd5, Hmail, Hname.
  repeat split; apply sendMail_never_encodes.
Qed.

Lemma token_deterministic_witness :
  qr_tokens (trace (sendCustomMail Fixture.fest_env
                      (Fixture.direct_request "alice@x.org")))
    = ["md5(alice@x.orgFest)"]
  /\ qr_tokens (trace (sendCustomMail Fixture.fest_env
                         (Fixture.direct_request "alice@x.org")))
     = qr_tokens (trace (sendCustomMail
                           (Fixture.env Fixture.the_qr Fixture.send_rejecting
                              (inl (LibraryError "unreachable")))
                           {| body := {| eventName := "Fest";
                                         mailSubject := "Reminder";
                                         mailBody := "**see you**";
                                         sendTo := ""; gender := "";
                                         isMarkdown := JStr "true";
                                         body_day := JUndefined;
                                         body_specific := JUndefined |};
                              customEmail := "alice@x.org";
                              x_access_token := None |})).
Proof.
  pose proof (token_deterministic Fixture.fest_env
    (Fixture.env Fixture.the_qr Fixture.send_rejecting
       (inl (LibraryError "unreachable")))
    (Fixture.direct_request "alice@x.org")
    {| body := {| eventName := "Fest"; mailSubject := "Reminder";
                  mailBody := "**see you**"; sendTo := ""; gender := "";
                  isMarkdown := JStr "true"; body_day := JUndefined;
                  body_specific := JUndefined |};
       customEmail := "alice@x.org"; x_access_token := None |}
    (Fixture.batch_request "both")
    eq_refl eq_refl eq_refl eq_refl eq_refl) as (H1 & H2 & _).
  split; [exact H1 | exact H2].
Defined.

(** * Further properties of the routes *)

(** ** The data-URI header *)

Lemma strip_prefix_app (p s : string) : strip_prefix p (p ++ s) = Some s.
Proof.
  induction p as [|a p IH]; [reflexivity|].
  simpl. rewrite Ascii.eqb_refl. exact IH.
Qed.

Lemma strip_prefix_sound (p s r : string) :
  strip_prefix p s = Some r -> s = (p ++ r)%string.
Proof.
  revert s. induction p as [|a p IH]; intros s H.
  - simpl in H. injection H as <-. reflexivity.
  - destruct s as [|c s]; simpl in H; [discriminate|].
    destruct (Ascii.eqb a c) eqn:Hac; [|discriminate].
    apply Ascii.eqb_eq in Hac. subst c.
    simpl. f_equal. apply IH. exact H.
Qed.

(** X1.  [code.replace(/^data:image\/(png|jpg);base64,/, "")] gives back
    the payload of a PNG or JPG data URL, whatever the payload is: one
    header is removed, also when the payload itself starts with a header. *)
Theorem strip_data_header_payload (payload : string) :
  strip_data_header ("data:image/png;base64," ++ payload) = payload
  /\ strip_data_header ("data:image/jpg;base64," ++ payload) = payload.
Proof.
  split.
  - unfold strip_data_header. rewrite strip_prefix_app. reflexivity.
  - unfold strip_data_header.
    replace (strip_prefix "data:image/png;base64,"
               ("data:image/jpg;base64," ++ payload)) with (@None string)
      by reflexivity.
    rewrite strip_prefix_app. reflexivity.
Qed.

(** X2.  The replacement only ever removes one of the two headers from the
    front: the result is the input, or the input is a PNG or a JPG header
    followed by the result.  In particular the result is never longer
    than the input. *)
Theorem strip_data_header_suffix (code : string) :
  (code = strip_data_header code
   \/ code = ("data:image/png;base64," ++ strip_data_header code)%string
   \/ code = ("data:image/jpg;base64," ++ strip_data_header code)%string)
  /\ String.length (strip_data_header code) <= String.length code.
Proof.
  assert (Hlen : forall p r : string,
            String.length (p ++ r) = String.length p + String.length r).
  { induction p as [|a p IH]; intros r; simpl; [reflexivity|].
    rewrite IH. reflexivity. }
  unfold strip_data_header.
  destruct (strip_prefix "data:image/png;base64," code) as [r|] eqn:Hpng.
  - apply strip_prefix_sound in Hpng. split; [right; left; exact Hpng|].
    rewrite Hpng, Hlen. lia.
  - destruct (strip_prefix "data:image/jpg;base64," code) as [r|] eqn:Hjpg.
    + apply strip_prefix_sound in Hjpg. split; [right; right; exact Hjpg|].
      rewrite Hjpg, Hlen. lia.
    + split; [left; reflexivity | lia].
Qed.

(** ** Validation *)

Lemma app_nil_iff {A} (l l' : list A) : l ++ l' = [] <-> l = [] /\ l' = [].
Proof.
  split; [apply app_eq_nil|]. intros [-> ->]. reflexivity.
Qed.

Lemma link_nil field loc negated validator v :
  link field loc negated validator v = [] <-> xorb (validator v) negated = true.
Proof.
  unfold link. destruct (xorb (validator v) negated); split; intros H;
    try reflexivity; discriminate.
Qed.

Lemma not_isEmpty_nil field loc v : not_isEmpty field loc v = [] <-> v <> "".
Proof.
  unfold not_isEmpty. rewrite link_nil. unfold isEmpty.
  destruct (String.eqb v "") eqn:Hv; simpl.
  - apply String.eqb_eq in Hv. split; [discriminate | intros H; contradiction].
  - apply String.eqb_neq in Hv. split; auto.
Qed.







(** ** The batch route on every request *)

(** The run of the batch handler, case by case. *)
Lemma sendMail_run (E : Collaborators) (req : Request) :
  sendMail E req =
  match validate_sendMail E req with
  | _ :: _ =>
      ([EvRespond 422 (ValidationFailed (validate_sendMail E req))], Normal tt)
  | [] =>
      match upstream_query (body req) with
      | None =>
          ([EvRespond 500 (EmptyParticipants "Participant list is empty")],
           Normal tt)
      | Some (url, data) =>
          match instance_post E (axios_create E (x_access_token req)) url data with
          | inl e =>
              ([EvPost (axios_create E (x_access_token req)) url data; EvLog e;
                EvRespond 500 (EmptyParticipants "Participant list is empty")],
               Normal tt)
          | inr r =>
              match rs r with
              | None =>
                  ([EvPost (axios_create E (x_access_token req)) url data],
                   Throw (TypeError "Cannot read property 'length' of undefined"))
              | Some [] =>
                  ([EvPost (axios_create E (x_access_token req)) url data;
                    EvRespond 500 (EmptyParticipants "Participant list is empty")],
                   Normal tt)
              | Some (p :: l) =>
                  (EvPost (axios_create E (x_access_token req)) url data
                   :: EvRespond 200 (SuccessCount (S (length l)))
                   :: EvLog (ReferenceError "participant")
                   :: rendering (isMarkdown (body req))
                        (sanitized_mailBody E (body req)),
                   Throw (TypeError "Cannot read property 'replace' of undefined"))
              end
          end
      end
  end.
Proof.
  destruct (validate_sendMail E req) as [|v vs] eqn:Hv.
  2:{ unfold sendMail. rewrite Hv. reflexivity. }
  destruct (upstream_query (body req)) as [[url data]|] eqn:Hq.
  2:{ unfold sendMail. rewrite Hv. cbv zeta.
      rewrite resolve_audience_posts, Hq. reflexivity. }
  destruct (instance_post E (axios_create E (x_access_token req)) url data)
    as [e|r] eqn:Hp.
  { unfold sendMail. rewrite Hv. cbv zeta.
    rewrite (resolve_audience_failed E _ _ _ _ _ Hq Hp). reflexivity. }
  pose proof (resolve_audience_answered E _ _ _ _ _ Hq Hp) as Hres.
  destruct (rs r) as [[|p l]|] eqn:Hrs.
  - rewrite (sendMail_unresolved E req _ (Some r) Hv Hres); [reflexivity|].
    right. eauto.
  - rewrite (sendMail_resolved E req _ r (p :: l) Hv Hres Hrs); [|discriminate].
    reflexivity.
  - unfold sendMail. rewrite Hv. cbv zeta. rewrite Hres, bind_normal.
    unfold read_rs. rewrite Hrs. reflexivity.
Qed.

Ltac batch_cases E req :=
  rewrite (sendMail_run E req);
  let Hv := fresh "Hv" in
  destruct (validate_sendMail E req) as [|? ?] eqn:Hv;
  [ destruct (upstream_query (body req)) as [[? ?]|];
    [ destruct (instance_post E (axios_create E (x_access_token req)) _ _)
        as [?|r];
      [ | destruct (rs r) as [[|? ?]|] ]
    | ]
  | ];
  unfold trace, completion, rendering; simpl;
  try destruct (truthy (isMarkdown (body req))); simpl.



(** X6.  Whatever the request and the collaborators, the batch handler
    answers at most once, and an answer is one of: 422 ValidationFailed
    with a non-empty error list, 500 EmptyParticipants, or 200 success
    with a participant count that is not zero. *)
Theorem batch_single_response (E : Collaborators) (req : Request) :
  length (responses (trace (sendMail E req))) <= 1
  /\ forall status b, In (status, b) (responses (trace (sendMail E req))) ->
       (status = 422 /\ exists errs, b = ValidationFailed errs /\ errs <> [])
       \/ (status = 500 /\ b = EmptyParticipants "Participant list is empty")
       \/ (status = 200 /\ exists n, b = SuccessCount n /\ 0 < n).
Proof.
  batch_cases E req; (split; [lia|]); intros status b Hin;
    simpl in Hin; try contradiction;
    destruct Hin as [Hin|[]]; injection Hin as <- <-.
  all: try (right; left; split; reflexivity).
  all: try (right; right; split; [reflexivity|]; eexists; split;
            [reflexivity | lia]).
  all: left; split; [reflexivity|]; eexists; split; [reflexivity | discriminate].
Qed.

(** X7.  On no request does the batch handler reach the mail pipeline:
    nothing is hashed, no credential is encoded and no message is handed
    to the delivery provider. *)
Theorem batch_never_sends (E : Collaborators) (req : Request) :
  md5_inputs (trace (sendMail E req)) = []
  /\ qr_tokens (trace (sendMail E req)) = []
  /\ sends (trace (sendMail E req)) = [].
Proof.
  batch_cases E req; repeat split.
Qed.

(** X8.  A batch request whose [sendTo] is the string 'absent', 'present'
    or 'both' and which passes validation contacts the registry exactly
    once: with the configured base URL, a timeout of 1000 ms and the
    caller's [x-access-token] as Authorization, posting the url and data
    of its [sendTo] case. *)
Theorem batch_registry_call (E : Collaborators) (req : Request) :
  In (sendTo (body req)) ["absent"; "present"; "both"] ->
  validate_sendMail E req = [] ->
  exists url data,
    upstream_query (body req) = Some (url, data)
    /\ posts (trace (sendMail E req))
       = [({| baseURL := BASE_URL E; timeout := 1000;
              Authorization := x_access_token req |}, url, data)]
    /\ event data = eventName (body req)
    /\ query data = {| key := "gender"; value := gender_code (gender (body req));
                       specific := body_specific (body req) |}.
Proof.
  intros Hto Hv.
  assert (Hq : exists url data,
            upstream_query (body req) = Some (url, data)
            /\ event data = eventName (body req)
            /\ query data = {| key := "gender";
                               value := gender_code (gender (body req));
                               specific := body_specific (body req) |}).
  { unfold upstream_query, gender_query.
    destruct Hto as [<- | [<- | [<- | []]]]; simpl;
      eexists; eexists; repeat split. }
  destruct Hq as (url & data & Hq & Hev & Hqu).
  exists url, data. split; [exact Hq|]. split; [|split; assumption].
  rewrite (sendMail_run E req), Hv, Hq.
  destruct (instance_post E _ url data) as [e|r]; [reflexivity|].
  destruct (rs r) as [[|p l]|]; try reflexivity.
  unfold trace, rendering; simpl.
  destruct (truthy (isMarkdown (body req))); reflexivity.
Qed.

Lemma batch_registry_call_witness :
  posts (trace (sendMail Fixture.fest_env (Fixture.batch_request "present")))
  = [({| baseURL := "http://registry.local/"; timeout := 1000;
         Authorization := Some "secret" |},
      "simple-projection/project-absent",
      {| event := "Fest"; day := Some (JNum 2);
         query := {| key := "gender"; value := "M"; specific := JUndefined |} |})].
Proof.
  destruct (batch_registry_call Fixture.fest_env
              (Fixture.batch_request "present")
              (or_intror (or_introl eq_refl)) eq_refl)
    as (url & data & Hq & Hposts & _).
  injection Hq as <- <-. exact Hposts.
Defined.

(** X9.  When the registry answers a validated batch request with an
    object that has no [rs], reading [response.rs.length] throws: the
    handler ends with a TypeError right after the post and the caller
    receives no answer at all. *)
Theorem batch_missing_rs_unanswered (E : Collaborators) (req : Request)
    (url : string) (data : Payload) (r : RegistryResponse) :
  validate_sendMail E req = [] ->
  upstream_query (body req) = Some (url, data) ->
  instance_post E (axios_create E (x_access_token req)) url data = inr r ->
  rs r = None ->
  sendMail E req
    = ([EvPost (axios_create E (x_access_token req)) url data],
       Throw (TypeError "Cannot read property 'length' of undefined"))
  /\ responses (trace (sendMail E req)) = [].
Proof.
  intros Hv Hq Hp Hrs.
  rewrite (sendMail_run E req), Hv, Hq, Hp, Hrs. split; reflexivity.
Qed.

Lemma batch_missing_rs_unanswered_witness :
  responses (trace (sendMail
    (Fixture.env Fixture.the_qr Fixture.the_send (inr {| rs := None |}))
    (Fixture.batch_request "absent"))) = [].
Proof.
  exact (proj2 (batch_missing_rs_unanswered
    (Fixture.env Fixture.the_qr Fixture.the_send (inr {| rs := None |}))
    (Fixture.batch_request "absent")
    "simple-projection/project-absent"
    {| event := "Fest"; day := Some (JNum 2);
       query := {| key := "gender"; value := "M"; specific := JUndefined |} |}
    {| rs := None |}
    eq_refl eq_refl eq_refl eq_refl)).
Defined.

(** X10.  With [sendTo] 'both' the handler posts to
    'simple-projection/project-all' and the data carries no [day]; this is
    never the query of the 'absent' case, although the event and the
    gender query are the same. *)
Theorem both_posts_project_all (E : Collaborators) (req : Request) :
  (forall cfg, exists rest,
     trace (resolve_audience E cfg (body (set_sendTo "both" req)))
     = EvPost cfg "simple-projection/project-all"
         {| event := eventName (body req); day := None;
            query := {| key := "gender";
                        value := gender_code (gender (body req));
                        specific := body_specific (body req) |} |} :: rest)
  /\ upstream_query (body (set_sendTo "both" req))
     <> upstream_query (body (set_sendTo "absent" req))
  /\ (forall url data url' data',
        upstream_query (body (set_sendTo "both" req)) = Some (url, data) ->
        upstream_query (body (set_sendTo "absent" req)) = Some (url', data') ->
        event data = event data' /\ query data = query data'
        /\ day data = None /\ day data' = Some (body_day (body req))).
Proof.
  split; [|split].
  - intros cfg. unfold resolve_audience, call_post. simpl.
    destruct (instance_post E cfg _ _); simpl; eexists; reflexivity.
  - discriminate.
  - intros url data url' data' H H'.
    injection H as <- <-. injection H' as <- <-. repeat split.
Qed.

(** X11.  Only 'female' is sent upstream as 'F': every other gender,
    'both' included, is sent as 'M'.  A request for gender 'both' is
    therefore handled exactly as the same request for gender 'male'. *)
Theorem gender_both_handled_as_male (E : Collaborators) (req : Request) :
  (forall g, gender_code g = "F" <-> g = "female")
  /\ (forall g, g <> "female" -> gender_code g = "M")
  /\ upstream_query (body (set_gender "both" req))
     = upstream_query (body (set_gender "male" req))
  /\ sendMail E (set_gender "both" req) = sendMail E (set_gender "male" req).
Proof.
  split; [|split; [|split]].
  - intros g. unfold gender_code.
    destruct (String.eqb g "female") eqn:Hg.
    + apply String.eqb_eq in Hg. split; auto.
    + apply String.eqb_neq in Hg. split; [discriminate | contradiction].
  - intros g Hg. unfold gender_code.
    apply String.eqb_neq in Hg. rewrite Hg. reflexivity.
  - reflexivity.
  - rewrite !sendMail_run. reflexivity.
Qed.

(** X12.  The delivery loop of the batch route, run with a credential at
    hand: it hands exactly one message per participant to the provider, in
    the order of the list, all with the same subject, body and attachment;
    each rejection by the provider is logged and the loop goes on with the
    next participant; it completes normally and never answers on [res]. *)
Theorem deliver_all_isolates_failures (E : Collaborators) (b : Body)
    (text code : string) (l : list Participant) :
  let message p :=
    {| msg_to := email p; msg_from := FROM_EMAIL E; subject := mailSubject b;
       html := if truthy (isMarkdown b) then converter_makeHtml E text else text;
       attachments := [{| content := strip_data_header code;
                          filename := "qrcode.png"; type := "image/png";
                          disposition := "attachment" |}] |} in
  sends (trace (deliver_all E b text (Some code) l)) = map message l
  /\ logged (trace (deliver_all E b text (Some code) l))
     = flat_map (fun p => match mail_send E (message p) with
                          | Some e => [e]
                          | None => []
                          end) l
  /\ completion (deliver_all E b text (Some code) l) = Normal tt
  /\ responses (trace (deliver_all E b text (Some code) l)) = [].
Proof.
  intros message.
  destruct (deliver_all_defined E b text code l) as (Hs & Hc & Hr).
  split; [exact Hs|]. split; [|split; [exact Hc | exact Hr]].
  clear Hs Hc Hr. induction l as [|p l IH]; [reflexivity|].
  cbn [deliver_all flat_map]. rewrite build_msg_defined.
  change {| msg_to := email p; msg_from := FROM_EMAIL E;
            subject := mailSubject b;
            html := rendered E (isMarkdown b) text;
            attachments := [qr_attachment code] |} with (message p).
  destruct (deliver_all_defined E b text code l) as (_ & Hc & _).
  destruct (deliver_all E b text (Some code) l) as [t c].
  unfold trace, completion in *. simpl in IH, Hc. subst c.
  assert (Hl : forall u, logged (rendering (isMarkdown b) text ++ u) = logged u).
  { intros u. unfold rendering. destruct (truthy (isMarkdown b)); reflexivity. }
  unfold call_send, console_log. simpl.
  destruct (mail_send E (message p)); simpl; rewrite Hl; simpl;
    rewrite ?logged_app; simpl; rewrite IH; reflexivity.
Qed.

(** ** The direct route on every request *)

(** The run of the direct handler, case by case. *)
Lemma sendCustomMail_run (E : Collaborators) (req : Request) :
  sendCustomMail E req =
  match validate_sendCustomMail E req with
  | _ :: _ =>
      ([EvRespond 422 (ValidationFailed (validate_sendCustomMail E req))],
       Normal tt)
  | [] =>
      match qr_toDataURL E (direct_token E req) with
      | inl e =>
          (EvMd5 (customEmail req ++ eventName (body req))
           :: EvQr (direct_token E req) :: EvLog e
           :: rendering (isMarkdown (body req)) (sanitized_mailBody E (body req)),
           Throw (TypeError "Cannot read property 'replace' of undefined"))
      | inr code =>
          match mail_send E (direct_msg E req code) with
          | None =>
              (EvMd5 (customEmail req ++ eventName (body req))
               :: EvQr (direct_token E req)
               :: rendering (isMarkdown (body req)) (sanitized_mailBody E (body req))
               ++ [EvSend (direct_msg E req code); EvRespond 200 Success],
               Normal tt)
          | Some e =>
              (EvMd5 (customEmail req ++ eventName (body req))
               :: EvQr (direct_token E req)
               :: rendering (isMarkdown (body req)) (sanitized_mailBody E (body req))
               ++ [EvSend (direct_msg E req code); EvLog e;
                   EvRespond 500 (MailNotSent e)],
               Normal tt)
          end
      end
  end.
Proof.
  destruct (validate_sendCustomMail E req) as [|v vs] eqn:Hv.
  - apply sendCustomMail_validated. exact Hv.
  - unfold sendCustomMail. rewrite Hv. reflexivity.
Qed.

(** X13.  A validated direct send whose credential is encoded and whose
    message the provider accepts: the message goes to the provider once,
    nothing is logged, and the caller gets 200 success. *)
Theorem direct_send_succeeds (E : Collaborators) (req : Request) (code : string) :
  validate_sendCustomMail E req = [] ->
  qr_toDataURL E (md5 E (customEmail req ++ eventName (body req))) = inr code ->
  mail_send E (direct_msg E req code) = None ->
  sends (trace (sendCustomMail E req)) = [direct_msg E req code]
  /\ responses (trace (sendCustomMail E req)) = [(200, Success)]
  /\ logged (trace (sendCustomMail E req)) = []
  /\ completion (sendCustomMail E req) = Normal tt.
Proof.
  intros Hv Hqr Hsend.
  rewrite (sendCustomMail_run E req), Hv. unfold direct_token.
  rewrite Hqr, Hsend. unfold trace, completion, rendering. simpl.
  destruct (truthy (isMarkdown (body req))); repeat split.
Qed.

Lemma direct_send_succeeds_witness :
  responses (trace (sendCustomMail Fixture.fest_env
                      (Fixture.direct_request "alice@x.org")))
  = [(200, Success)].
Proof.
  exact (proj1 (proj2 (direct_send_succeeds Fixture.fest_env
    (Fixture.direct_request "alice@x.org")
    "data:image/png;base64,md5(alice@x.orgFest)"
    eq_refl eq_refl eq_refl))).
Defined.

(** X14.  A validated direct send whose message the provider rejects: the
    provider is tried once and not again, its error is logged, and the
    caller gets 500 MailNotSent carrying that same error. *)
Theorem direct_send_rejected (E : Collaborators) (req : Request)
    (code : string) (e : JsError) :
  validate_sendCustomMail E req = [] ->
  qr_toDataURL E (md5 E (customEmail req ++ eventName (body req))) = inr code ->
  mail_send E (direct_msg E req code) = Some e ->
  sends (trace (sendCustomMail E req)) = [direct_msg E req code]
  /\ responses (trace (sendCustomMail E req)) = [(500, MailNotSent e)]
  /\ logged (trace (sendCustomMail E req)) = [e]
  /\ completion (sendCustomMail E req) = Normal tt.
Proof.
  intros Hv Hqr Hsend.
  rewrite (sendCustomMail_run E req), Hv. unfold direct_token.
  rewrite Hqr, Hsend. unfold trace, completion, rendering. simpl.
  destruct (truthy (isMarkdown (body req))); repeat split.
Qed.

Lemma direct_send_rejected_witness :
  responses (trace (sendCustomMail
    (Fixture.env Fixture.the_qr Fixture.send_rejecting (Fixture.resolved []))
    (Fixture.direct_request "alice@x.org")))
  = [(500, MailNotSent (LibraryError "Bad Request"))].
Proof.
  exact (proj1 (proj2 (direct_send_rejected
    (Fixture.env Fixture.the_qr Fixture.send_rejecting (Fixture.resolved []))
    (Fixture.direct_request "alice@x.org")
    "data:image/png;base64,md5(alice@x.orgFest)"
    (LibraryError "Bad Request")
    eq_refl eq_refl eq_refl))).
Defined.

(** X15.  Whatever the request and the collaborators, the direct handler
    never contacts the registry, encodes at most one credential, hands at
    most one message to the provider and answers at most once.  An answer
    is 422 ValidationFailed, or 200 success after the provider accepted
    the one message, or 500 MailNotSent with the error by which the
    provider rejected it.  The caller is left without an answer only when
    the request passed validation and the encoder rejected the token. *)
Theorem direct_single_outcome (E : Collaborators) (req : Request) :
  posts (trace (sendCustomMail E req)) = []
  /\ length (qr_tokens (trace (sendCustomMail E req))) <= 1
  /\ length (sends (trace (sendCustomMail E req))) <= 1
  /\ length (responses (trace (sendCustomMail E req))) <= 1
  /\ (forall status b,
        In (status, b) (responses (trace (sendCustomMail E req))) ->
        (status = 422 /\ b = ValidationFailed (validate_sendCustomMail E req)
         /\ validate_sendCustomMail E req <> []
         /\ sends (trace (sendCustomMail E req)) = [])
        \/ (status = 200 /\ b = Success
            /\ exists m, sends (trace (sendCustomMail E req)) = [m]
                         /\ mail_send E m = None)
        \/ (status = 500
            /\ exists m e, b = MailNotSent e
                           /\ sends (trace (sendCustomMail E req)) = [m]
                           /\ mail_send E m = Some e))
  /\ (responses (trace (sendCustomMail E req)) = [] ->
      validate_sendCustomMail E req = []
      /\ exists e, qr_toDataURL E
                     (md5 E (customEmail req ++ eventName (body req))) = inl e).
Proof.
  pose proof (sendCustomMail_run E req) as Hrun.
  destruct (validate_sendCustomMail E req) as [|v vs] eqn:Hv.
  - unfold direct_token in Hrun.
    destruct (qr_toDataURL E (md5 E (customEmail req ++ eventName (body req))))
      as [e|code] eqn:Hqr.
    + rewrite Hrun. unfold trace, rendering. simpl.
      destruct (truthy (isMarkdown (body req))); simpl;
        (repeat split; try lia; eauto; intros ? ? []).
    + destruct (mail_send E (direct_msg E req code)) as [e|] eqn:Hsend;
        rewrite Hrun; unfold trace, rendering; simpl;
        destruct (truthy (isMarkdown (body req))); simpl;
        (split; [reflexivity|]); (split; [lia|]); (split; [lia|]);
        (split; [lia|]); (split; [|discriminate]);
        intros status b [Hin|[]]; injection Hin as <- <-.
      all: try (right; right; split; [reflexivity|];
                exists (direct_msg E req code), e; auto).
      all: right; left; split; [reflexivity|]; split; [reflexivity|];
           exists (direct_msg E req code); auto.
  - rewrite Hrun. unfold trace. simpl.
    split; [reflexivity|]. split; [lia|]. split; [lia|]. split; [lia|].
    split; [|discriminate].
    intros status b [Hin|[]]. injection Hin as <- <-.
    left. repeat split. discriminate.
Qed.

(** X16.  When the encoder returns a PNG data URL for a validated direct
    send, the one message handed to the provider is addressed to the
    address of the path, sent from [FROM_EMAIL] with the subject of the
    request, and has a single attachment 'qrcode.png' of type 'image/png'
    whose content is the base64 payload with the data-URI header removed. *)
Theorem direct_attachment_is_payload (E : Collaborators) (req : Request)
    (payload : string) :
  validate_sendCustomMail E req = [] ->
  qr_toDataURL E (md5 E (customEmail req ++ eventName (body req)))
    = inr ("data:image/png;base64," ++ payload)%string ->
  exists m,
    sends (trace (sendCustomMail E req)) = [m]
    /\ msg_to m = customEmail req
    /\ msg_from m = FROM_EMAIL E
    /\ subject m = mailSubject (body req)
    /\ attachments m = [{| content := payload; filename := "qrcode.png";
                           type := "image/png"; disposition := "attachment" |}].
Proof.
  intros Hv Hqr.
  exists (direct_msg E req ("data:image/png;base64," ++ payload)).
  split.
  - rewrite (sendCustomMail_run E req), Hv. unfold direct_token. rewrite Hqr.
    destruct (mail_send E _); unfold trace, rendering; simpl;
      destruct (truthy (isMarkdown (body req))); reflexivity.
  - unfold direct_msg, qr_attachment, strip_data_header. simpl attachments.
    rewrite strip_prefix_app. repeat split.
Qed.

Lemma direct_attachment_is_payload_witness :
  exists m,
    sends (trace (sendCustomMail Fixture.fest_env
                    (Fixture.direct_request "alice@x.org"))) = [m]
    /\ attachments m = [{| content := "md5(alice@x.orgFest)";
                           filename := "qrcode.png"; type := "image/png";
                           disposition := "attachment" |}].
Proof.
  destruct (direct_attachment_is_payload Fixture.fest_env
              (Fixture.direct_request "alice@x.org") "md5(alice@x.orgFest)"
              eq_refl eq_refl) as (m & Hs & _ & _ & _ & Ha).
  exists m. split; [exact Hs | exact Ha].
Defined.

(** X17.  The body of a validated direct send is always the sanitized
    text, [mailBody] trimmed and then escaped: handed to the markdown
    converter when [isMarkdown] is truthy, used as it is otherwise.  The
    flag is tested as a JavaScript value, so an [isMarkdown] given as a
    string, 'false' and '0' included, has the body converted. *)
Theorem direct_body_rendering (E : Collaborators) (req : Request) (code : string) :
  validate_sendCustomMail E req = [] ->
  qr_toDataURL E (md5 E (customEmail req ++ eventName (body req))) = inr code ->
  exists m,
    sends (trace (sendCustomMail E req)) = [m]
    /\ html m = (if truthy (isMarkdown (body req))
                 then converter_makeHtml E (escape E (trim E (mailBody (body req))))
                 else escape E (trim E (mailBody (body req))))
    /\ rendered_texts (trace (sendCustomMail E req))
       = (if truthy (isMarkdown (body req))
          then [escape E (trim E (mailBody (body req)))] else [])
    /\ (forall s, isMarkdown (body req) = JStr s ->
          html m = converter_makeHtml E (escape E (trim E (mailBody (body req))))).
Proof.
  intros Hv Hqr. exists (direct_msg E req code).
  assert (Hstr : forall s, isMarkdown (body req) = JStr s ->
                   truthy (isMarkdown (body req)) = true).
  { intros s Hs.
    unfold validate_sendCustomMail in Hv.
    rewrite !app_nil_iff, !not_isEmpty_nil in Hv.
    destruct Hv as (_ & _ & _ & (Hne & _) & _).
    rewrite Hs in *. simpl in *.
    destruct (String.eqb s "") eqn:He; [|reflexivity].
    apply String.eqb_eq in He. contradiction. }
  split; [|split; [|split]].
  - rewrite (sendCustomMail_run E req), Hv. unfold direct_token. rewrite Hqr.
    destruct (mail_send E _); unfold trace, rendering; simpl;
      destruct (truthy (isMarkdown (body req))); reflexivity.
  - reflexivity.
  - rewrite (sendCustomMail_run E req), Hv. unfold direct_token. rewrite Hqr.
    destruct (mail_send E _); unfold trace, rendering, sanitized_mailBody; simpl;
      destruct (truthy (isMarkdown (body req))); reflexivity.
  - intros s Hs. unfold direct_msg, rendered, sanitized_mailBody. simpl.
    rewrite (Hstr s Hs). reflexivity.
Qed.

Lemma direct_body_rendering_witness :
  exists m,
    sends (trace (sendCustomMail Fixture.fest_env
      {| body := {| eventName := "Fest"; mailSubject := "Reminder";
                    mailBody := "**see you**"; sendTo := ""; gender := "";
                    isMarkdown := JStr "false"; body_day := JUndefined;
                    body_specific := JUndefined |};
         customEmail := "alice@x.org"; x_access_token := None |})) = [m]
    /\ html m = "<p>**see you**</p>".
Proof.
  destruct (direct_body_rendering Fixture.fest_env
    {| body := {| eventName := "Fest"; mailSubject := "Reminder";
                  mailBody := "**see you**"; sendTo := ""; gender := "";
                  isMarkdown := JStr "false"; body_day := JUndefined;
                  body_specific := JUndefined |};
       customEmail := "alice@x.org"; x_access_token := None |}
    "data:image/png;base64,md5(alice@x.orgFest)"
    eq_refl eq_refl) as (m & Hs & _ & _ & Hstr).
  exists m. split; [exact Hs | exact (Hstr "false" eq_refl)].
Defined.

(** * Process start-up *)

(** X18.  The process starts listening exactly when SENDGRID_API_KEY,
    BASE_URL and FROM_EMAIL are all set to non-empty strings; it then
    listens once and never calls [process.exit()].  Otherwise it calls
    [process.exit()] once, without having installed any middleware or
    route. *)
Theorem startup_listens_iff_configured (env : string -> option string)
    (listen : JsValue -> Startup.ListenOutcome) :
  let configured :=
    (negb (Startup.unset (env "SENDGRID_API_KEY"))
     && negb (Startup.unset (env "BASE_URL"))
     && negb (Startup.unset (env "FROM_EMAIL")))%bool in
  (configured = true ->
     Startup.listens (Startup.main env listen) = [Startup.appPort env]
     /\ Startup.exits (Startup.main env listen) = 0
     /\ In (Startup.BootMount "/api/v1/") (Startup.main env listen))
  /\ (configured = false ->
        Startup.listens (Startup.main env listen) = []
        /\ Startup.exits (Startup.main env listen) = 1
        /\ last (Startup.main env listen) Startup.BootUseJson = Startup.BootExit
        /\ forall path, ~ In (Startup.BootMount path) (Startup.main env listen)).
Proof.
  intros configured. subst configured. unfold Startup.main.
  destruct (Startup.unset (env "SENDGRID_API_KEY"));
    destruct (Startup.unset (env "BASE_URL"));
    destruct (Startup.unset (env "FROM_EMAIL")); simpl;
    (split; intros H; try discriminate H).
  all: try (repeat split; intros path [Hp|[Hp|[Hp|Hp]]];
            solve [discriminate Hp | contradiction]).
  destruct (listen (Startup.appPort env)); simpl; repeat split; auto.
Qed.

Lemma startup_listens_iff_configured_witness :
  Startup.listens (Startup.main Startup.sample_env (fun _ => Startup.BoundToPipe)) = [JNum 4000]
  /\ Startup.listens (Startup.main Startup.broken_env (fun _ => Startup.BoundToPipe)) = []
  /\ Startup.exits (Startup.main Startup.broken_env (fun _ => Startup.BoundToPipe)) = 1.
Proof.
  destruct (startup_listens_iff_configured Startup.sample_env (fun _ => Startup.BoundToPipe))
    as (Hyes & _).
  destruct (startup_listens_iff_configured Startup.broken_env (fun _ => Startup.BoundToPipe))
    as (_ & Hno).
  destruct (Hyes eq_refl) as (Hl & _).
  destruct (Hno eq_refl) as (Hn & He & _).
  split; [exact Hl|]. split; [exact Hn | exact He].
Defined.

(** X19.  When a required variable is missing or empty the process logs
    one line, naming the first such variable in the order
    SENDGRID_API_KEY, BASE_URL, FROM_EMAIL, and exits; the later variables
    are not looked at.  The mail client was handed the key, set or not,
    before any of these checks. *)
Theorem startup_reports_first_missing (env : string -> option string)
    (listen : JsValue -> Startup.ListenOutcome) :
  (Startup.unset (env "SENDGRID_API_KEY") = true ->
     Startup.main env listen
     = [Startup.BootSetApiKey (env "SENDGRID_API_KEY");
        Startup.BootLog "Environment variable SENDGRID_API_KEY is not set. Exiting.";
        Startup.BootExit])
  /\ (Startup.unset (env "SENDGRID_API_KEY") = false ->
      Startup.unset (env "BASE_URL") = true ->
        Startup.main env listen
        = [Startup.BootSetApiKey (env "SENDGRID_API_KEY");
           Startup.BootLog "Environment variable BASE_URL is not set. Exiting";
           Startup.BootExit])
  /\ (Startup.unset (env "SENDGRID_API_KEY") = false ->
      Startup.unset (env "BASE_URL") = false ->
      Startup.unset (env "FROM_EMAIL") = true ->
        Startup.main env listen
        = [Startup.BootSetApiKey (env "SENDGRID_API_KEY");
           Startup.BootLog "Environment variable FROM_EMAIL is not set. Exiting";
           Startup.BootExit]).
Proof.
  unfold Startup.main.
  split; [|split]; intros; repeat match goal with H : _ = _ |- _ => rewrite H end;
    reflexivity.
Qed.

Lemma startup_reports_first_missing_witness :
  Startup.main Startup.broken_env (fun _ => Startup.BoundToPort 4000)
  = [Startup.BootSetApiKey (Some "SG.key");
     Startup.BootLog "Environment variable BASE_URL is not set. Exiting";
     Startup.BootExit].
Proof.
  destruct (startup_reports_first_missing Startup.broken_env
              (fun _ => Startup.BoundToPort 4000)) as (_ & H & _).
  exact (H eq_refl eq_refl).
Defined.

(** X20.  A configured process listens on the value of PORT when PORT is
    a non-empty string and on 4000 otherwise, an empty PORT included.
    What follows depends on how listening ends: bound to a TCP port, the
    process logs that the service is up on that port; bound to a pipe (a
    PORT that is not a number), it logs the same line with 'undefined'
    for the port; when listening fails nothing is logged and the
    unhandled error ends the process. *)
Theorem startup_port (env : string -> option string)
    (listen : JsValue -> Startup.ListenOutcome) :
  Startup.unset (env "SENDGRID_API_KEY") = false ->
  Startup.unset (env "BASE_URL") = false ->
  Startup.unset (env "FROM_EMAIL") = false ->
  Startup.listens (Startup.main env listen)
    = [match env "PORT" with
       | Some (String c s) => JStr (String c s)
       | _ => JNum 4000
       end]
  /\ (forall bound, (0 <= bound < 65536)%Z ->
        listen (Startup.appPort env) = Startup.BoundToPort bound ->
        last (Startup.main env listen) Startup.BootExit
        = Startup.BootLog ("Service is up and running on port "
                           ++ toString (JNum bound) ++ "."))
  /\ (listen (Startup.appPort env) = Startup.BoundToPipe ->
        last (Startup.main env listen) Startup.BootExit
        = Startup.BootLog "Service is up and running on port undefined.")
  /\ (forall e, listen (Startup.appPort env) = Startup.ListenFailed e ->
        last (Startup.main env listen) Startup.BootExit = Startup.BootUncaught e
        /\ forall line, ~ In (Startup.BootLog line) (Startup.main env listen)).
Proof.
  intros H1 H2 H3. unfold Startup.main. rewrite H1, H2, H3.
  split; [|split; [|split]].
  - simpl. unfold Startup.appPort.
    destruct (env "PORT") as [[|c s]|]; simpl;
      destruct (listen _); reflexivity.
  - intros bound _ Hb. rewrite Hb. reflexivity.
  - intros Hp. rewrite Hp. reflexivity.
  - intros e He. rewrite He. split; [reflexivity|].
    intros line. simpl.
    intros [H|[H|[H|[H|[H|[H|[]]]]]]]; discriminate H.
Qed.

Lemma startup_port_witness :
  Startup.listens (Startup.main Startup.sample_env
                     (fun _ => Startup.BoundToPort 4000)) = [JNum 4000]
  /\ last (Startup.main Startup.sample_env (fun _ => Startup.BoundToPort 4000))
          Startup.BootExit
     = Startup.BootLog "Service is up and running on port 4000.".
Proof.
  destruct (startup_port Startup.sample_env (fun _ => Startup.BoundToPort 4000)
              eq_refl eq_refl eq_refl) as (Hl & Hlog & _).
  split; [exact Hl | exact (Hlog 4000%Z ltac:(lia) eq_refl)].
Defined.
